(** * pyPSX: [psx/core.py], the [PSXTicker] facade and its source fallback

    A shallow embedding of [PSXTicker.get_intraday_data] and
    [PSXTicker.get_historical_data], and the properties of the fallback
    orchestration.

    Conventions of the embedding.
    - A Python [str] is a [string]; each character is one ASCII code point.
    - A Python [int] is a [Z].
    - Code that can raise returns a [result]; code that talks to the outside
      world (data sources, the clock, standard output) runs in the monad [M],
      which records every such interaction, in order, in a trace.
    - The data sources, [pandas] and the clock are collaborators: they are the
      fields of a [World].  Messages of built-in exceptions follow CPython
      3.12. *)

From Stdlib Require Import String Ascii List ZArith Lia Bool Arith.
From Stdlib Require DecimalString.
Import ListNotations.
Open Scope string_scope.
Open Scope Z_scope.

(** ** Exceptions *)

(** Classes below [Exception] that the code can meet.  [PSXRequestError] is
    the package's own class ([psx/exceptions.py]); every other class is a
    Python or third-party one. *)
Inductive builtin_class : Type :=
| ValueError
| KeyError
| TypeError
| AttributeError
| OverflowError
| OtherException (name : string).

Inductive exn_class : Type :=
| PSXRequestError
| Builtin (c : builtin_class).

(** An exception instance: its class and the text [str(e)] yields. *)
Record exn : Type := mkExn { exn_cls : exn_class; exn_str : string }.

Definition is_PSXRequestError (e : exn) : bool :=
  match exn_cls e with
  | PSXRequestError => true
  | Builtin _ => false
  end.

Definition builtin_exn (c : builtin_class) (msg : string) : exn :=
  mkExn (Builtin c) msg.

Inductive result (A : Type) : Type :=
| Ok (a : A)
| Raise (e : exn).
Arguments Ok {A} a.
Arguments Raise {A} e.

(** ** Python strings *)

Module PyStr.

Definition code (c : ascii) : nat := nat_of_ascii c.

Definition in_range (lo hi : nat) (c : ascii) : bool :=
  (Nat.leb lo (code c) && Nat.leb (code c) hi)%bool.

(** [str.isspace] on ASCII: TAB..CR, FS..US and the space. *)
Definition is_space (c : ascii) : bool :=
  (in_range 9 13 c || in_range 28 32 c)%bool.

Definition is_digit (c : ascii) : bool := in_range 48 57 c.

Definition digit_value (c : ascii) : Z := Z.of_nat (code c - 48).

Definition lower_char (c : ascii) : ascii :=
  if in_range 65 90 c then ascii_of_nat (code c + 32) else c.

Definition upper_char (c : ascii) : ascii :=
  if in_range 97 122 c then ascii_of_nat (code c - 32) else c.

Fixpoint map_chars (f : ascii -> ascii) (s : string) : string :=
  match s with
  | EmptyString => EmptyString
  | String c s' => String (f c) (map_chars f s')
  end.

(** [s.lower()] and [s.upper()]. *)
Definition lower : string -> string := map_chars lower_char.
Definition upper : string -> string := map_chars upper_char.

Definition chars : string -> list ascii := list_ascii_of_string.
Definition of_chars : list ascii -> string := string_of_list_ascii.

(** [s[:-2]]: everything but the last two characters. *)
Definition drop_last2 (s : string) : string :=
  of_chars (firstn (List.length (chars s) - 2) (chars s)).

(** [s[-2:]]: the last two characters (the whole string when shorter). *)
Definition last2 (s : string) : string :=
  of_chars (skipn (List.length (chars s) - 2) (chars s)).

Fixpoint lstrip (l : list ascii) : list ascii :=
  match l with
  | c :: l' => if is_space c then lstrip l' else l
  | [] => []
  end.

Definition strip (l : list ascii) : list ascii :=
  List.rev (lstrip (List.rev (lstrip l))).

(** Decimal text of an integer, as [str(n)] and the [d] format print it. *)
Definition of_Z (z : Z) : string := DecimalString.NilZero.string_of_int (Z.to_int z).
Definition of_nat (n : nat) : string := of_Z (Z.of_nat n).

Definition hex_digit (n : nat) : ascii :=
  if Nat.ltb n 10 then ascii_of_nat (48 + n) else ascii_of_nat (87 + n).

Definition mem_char (c : ascii) (s : string) : bool :=
  existsb (Ascii.eqb c) (chars s).

(** [repr(s)]: single quotes unless the text has a single and no double
    quote; backslash escapes for the quote, the backslash and control
    characters. *)
Definition quote1 : ascii := "039"%char.
Definition quote2 : ascii := "034"%char.
Definition backslash : ascii := "092"%char.
Definition str1 (c : ascii) : string := String c EmptyString.

Definition repr_char (q c : ascii) : string :=
  if (Ascii.eqb c q || Ascii.eqb c backslash)%bool
  then String backslash (str1 c)
  else if Ascii.eqb c "010" then String backslash "n"
  else if Ascii.eqb c "013" then String backslash "r"
  else if Ascii.eqb c "009" then String backslash "t"
  else if (Nat.ltb (code c) 32 || Nat.leb 127 (code c))%bool then
    String backslash
      (String "x" (String (hex_digit (code c / 16))
                     (str1 (hex_digit (code c mod 16)))))
  else str1 c.

Definition repr (s : string) : string :=
  let q : ascii :=
    if (mem_char quote1 s && negb (mem_char quote2 s))%bool then quote2
    else quote1 in
  String q (String.concat EmptyString (map (repr_char q) (chars s))
              ++ str1 q).

End PyStr.

(** ** [int(text)] *)

Module PyInt.
Import PyStr.

(** [sys.get_int_max_str_digits()], the default. *)
Definition max_str_digits : nat := 4300.

(** The digits of a decimal literal, single underscores allowed between
    digits.  [prev] tells whether the previous character was a digit;
    the result is the value and the number of digits read. *)
Fixpoint digits (prev : bool) (acc : Z) (n : nat) (l : list ascii)
  : option (Z * nat) :=
  match l with
  | [] => if prev then Some (acc, n) else None
  | c :: l' =>
      if is_digit c then digits true (acc * 10 + digit_value c) (S n) l'
      else if (Ascii.eqb c "_" && prev)%bool then digits false acc n l'
      else None
  end.

Definition invalid_literal (s : string) : exn :=
  builtin_exn ValueError
    ("invalid literal for int() with base 10: " ++ substring 0 200 (repr s)).

Definition too_many_digits (n : nat) : exn :=
  builtin_exn ValueError
    ("Exceeds the limit (" ++ of_nat max_str_digits
       ++ " digits) for integer string conversion: value has "
       ++ of_nat n ++ " digits; use sys.set_int_max_str_digits() "
       ++ "to increase the limit").

(** [int(s)] for a [str] argument: surrounding white space is dropped, one
    sign is allowed, then come the digits. *)
Definition int (s : string) : result Z :=
  let body := strip (chars s) in
  let '(negative, ds) :=
    match body with
    | "-"%char :: r => (true, r)
    | "+"%char :: r => (false, r)
    | r => (false, r)
    end in
  match digits false 0 0 ds with
  | None => Raise (invalid_literal s)
  | Some (v, n) =>
      if Nat.ltb max_str_digits n then Raise (too_many_digits n)
      else Ok (if negative : bool then - v else v)
  end.

End PyInt.

(** ** [datetime] and [timedelta] *)

Module PyDate.

(** A naive [datetime]: the proleptic Gregorian ordinal of its day
    ([date.toordinal()], 1 is 0001-01-01) and the microsecond within that
    day. *)
Record datetime : Type := mkDatetime { ordinal : Z; micros : Z }.

Definition min_ordinal : Z := 1.
(** 9999-12-31 *)
Definition max_ordinal : Z := 3652059.

Definition max_delta_days : Z := 999999999.

(** [timedelta(days=n)]. *)
Definition timedelta_days (n : Z) : result Z :=
  if Z.abs n <=? max_delta_days then Ok n
  else Raise (builtin_exn OverflowError
                ("days=" ++ PyStr.of_Z n
                   ++ "; must have magnitude <= 999999999")).

(** [d - delta] for a whole number of days. *)
Definition sub_days (d : datetime) (delta : Z) : result datetime :=
  let o := ordinal d - delta in
  if (min_ordinal <=? o) && (o <=? max_ordinal)
  then Ok (mkDatetime o (micros d))
  else Raise (builtin_exn OverflowError "date value out of range").

(** Calendar dates, to write examples. *)
Definition is_leap (y : Z) : bool :=
  ((y mod 4 =? 0) && (negb (y mod 100 =? 0) || (y mod 400 =? 0)))%bool.

Definition days_before_year (y : Z) : Z :=
  let p := y - 1 in p * 365 + p / 4 - p / 100 + p / 400.

Definition days_in_month (y m : Z) : Z :=
  if m =? 2 then (if is_leap y then 29 else 28)
  else if (m =? 4) || (m =? 6) || (m =? 9) || (m =? 11) then 30
  else 31.

Definition days_before_month (y m : Z) : Z :=
  fold_left (fun acc k => acc + days_in_month y (Z.of_nat k))
            (seq 1 (Z.to_nat m - 1)) 0.

Definition ymd (y m d : Z) : datetime :=
  mkDatetime (days_before_year y + days_before_month y m + d) 0.

End PyDate.
Import PyDate.

(** ** Python values and tables *)

(** The values that reach the facade from its collaborators.  [PObject] is an
    instance of any other type; [iter] lists what iterating over it yields,
    when it can be iterated. *)
#[warnings="-register-all"]
Inductive pyval : Type :=
| PNone
| PBool (b : bool)
| PInt (z : Z)
| PFloat (bits : Z)
| PStr (s : string)
| PDatetime (d : datetime)
| PList (items : list pyval)
| PTuple (items : list pyval)
| PDict (entries : list (pyval * pyval))
| PObject (type_name : string) (iter : option (list pyval)).

(** A [pandas.DataFrame]: its column labels, the name and the labels of its
    row index, and its cells row by row. *)
Record DataFrame : Type := mkFrame {
  columns : list string;
  index_name : option string;
  index : list pyval;
  cells : list (list pyval)
}.

Module Pandas.

(** [df.empty]: an axis of length 0. *)
Definition empty (df : DataFrame) : bool :=
  (Nat.eqb (List.length (index df)) 0
   || Nat.eqb (List.length (columns df)) 0)%bool.

(** [len(df)]: the number of rows. *)
Definition len (df : DataFrame) : nat := List.length (index df).

(** [df.columns = labels]. *)
Definition set_columns (labels : list string) (df : DataFrame) : DataFrame :=
  mkFrame labels (index_name df) (index df) (cells df).

Definition head (df : DataFrame) : DataFrame :=
  mkFrame (columns df) (index_name df) (firstn 5 (index df))
          (firstn 5 (cells df)).

Definition tail (df : DataFrame) : DataFrame :=
  mkFrame (columns df) (index_name df)
          (skipn (List.length (index df) - 5) (index df))
          (skipn (List.length (cells df) - 5) (cells df)).

(** The positions of the columns labelled [c]. *)
Fixpoint positions (c : string) (labels : list string) (i : nat) : list nat :=
  match labels with
  | [] => []
  | l :: ls =>
      if String.eqb l c then i :: positions c ls (S i)
      else positions c ls (S i)
  end.

Definition column_at (df : DataFrame) (i : nat) : list pyval :=
  map (fun row => nth i row PNone) (cells df).

Definition key_error (c : string) : exn :=
  builtin_exn KeyError (PyStr.repr c).

(** [df[c]]: the data under the label [c], one list per column carrying
    it; [KeyError] when no column does. *)
Definition getitem (df : DataFrame) (c : string) : result (list (list pyval)) :=
  match positions c (columns df) 0 with
  | [] => Raise (key_error c)
  | ps => Ok (map (column_at df) ps)
  end.

Definition remove_nth {A : Type} (i : nat) (l : list A) : list A :=
  firstn i l ++ skipn (S i) l.

(** [pd.DataFrame(records)] for records that all have the keys [keys], in
    that order: one row per record under a [RangeIndex]; no record, no
    column. *)
Definition of_records (keys : list string) (records : list (list pyval))
  : DataFrame :=
  match records with
  | [] => mkFrame [] None [] []
  | _ => mkFrame keys None
                 (map (fun i => PInt (Z.of_nat i))
                      (seq 0 (List.length records)))
                 records
  end.

(** [df.set_index(c)]: the column [c] becomes the row index. *)
Definition set_index (c : string) (df : DataFrame) : result DataFrame :=
  match positions c (columns df) 0 with
  | [] => Raise (builtin_exn KeyError
                   ("None of [" ++ PyStr.repr c ++ "] are in the columns"))
  | i :: _ =>
      Ok (mkFrame (remove_nth i (columns df)) (Some c)
                  (column_at df i)
                  (map (remove_nth i) (cells df)))
  end.

End Pandas.

(** The four figures of the statistics printout and their formats. *)
Inductive stat : Type :=
| Mean2f    (* [{x.mean():.2f}] *)
| Max2f     (* [{x.max():.2f}] *)
| Min2f     (* [{x.min():.2f}] *)
| Sum0f.    (* [{x.sum():,.0f}] *)

(** ** The outside world *)

(** What [print] receives: a text, or a table [pandas] renders. *)
Inductive printed : Type :=
| Text (s : string)
| Table (df : DataFrame).

(** Interactions with the outside world, as the trace records them. *)
Inductive event : Type :=
| EvNow
| EvPrint (p : printed)
| EvScrapeHistorical (symbol : string) (start_date end_date : datetime)
| EvReaderIntraday (symbol : string)
| EvFetchIntraday (symbol : string)
| EvTradingViewClient
| EvTradingViewHistorical (symbol : string) (start_date end_date : datetime).

(** The collaborators of [psx/core.py].  Each is called at most once per call
    of a facade method, so its answer is a function of its arguments.
    [pandas] itself cannot raise the package's [PSXRequestError], so a failed
    aggregation carries a [builtin_class]. *)
Record World : Type := mkWorld {
  (** [datetime.now()] *)
  now : datetime;
  (** [fetchers.scrape_historical_data(symbol, start_date, end_date)] *)
  scrape_historical_data : string -> datetime -> datetime -> result DataFrame;
  (** [psx_reader.get_intraday_data(symbol)]: any object *)
  reader_get_intraday_data : string -> result (pyval + DataFrame);
  (** [fetchers.fetch_intraday_data(symbol)] *)
  fetch_intraday_data : string -> result pyval;
  (** [TradingViewClient()] *)
  TradingViewClient : result unit;
  (** [tv_client.get_historical_data(symbol=, start_date=, end_date=)] *)
  tv_get_historical_data : string -> datetime -> datetime -> result pyval;
  (** [pd.to_datetime(x)] *)
  pd_to_datetime : pyval -> result pyval;
  (** an aggregate of the selected data, formatted for the printout *)
  pd_stat : stat -> list (list pyval) -> string + builtin_class * string
}.

(** ** The monad of effects: a trace and a result *)

Definition M (A : Type) : Type := list event * result A.

Definition ret {A : Type} (a : A) : M A := ([], Ok a).

Definition raise {A : Type} (e : exn) : M A := ([], Raise e).

Definition bind {A B : Type} (m : M A) (f : A -> M B) : M B :=
  match m with
  | (t, Ok a) => let (t', r) := f a in ((t ++ t')%list, r)
  | (t, Raise e) => (t, Raise e)
  end.

(** A pure computation that may raise. *)
Definition lift {A : Type} (r : result A) : M A := ([], r).

(** A call to a collaborator: the call is recorded, then it answers. *)
Definition call {A : Type} (ev : event) (r : result A) : M A := ([ev], r).

(** [try: body / except <classes matched by catches> as e: handler e]. *)
Definition try_except {A : Type} (body : M A) (catches : exn -> bool)
           (handler : exn -> M A) : M A :=
  match body with
  | (t, Ok a) => (t, Ok a)
  | (t, Raise e) =>
      if catches e then let (t', r) := handler e in ((t ++ t')%list, r)
      else (t, Raise e)
  end.

(** [except Exception]: every exception of the model is one. *)
Definition any_Exception (_ : exn) : bool := true.

Declare Scope py_scope.
Delimit Scope py_scope with py.
Notation "x <- m ;; k" := (bind m (fun x => k))
  (at level 100, m at next level, right associativity) : py_scope.
Notation "m ;;; k" := (bind m (fun _ => k))
  (at level 100, right associativity) : py_scope.
Open Scope py_scope.
Open Scope list_scope.
Open Scope string_scope.

Definition trace {A : Type} (m : M A) : list event := fst m.
Definition outcome {A : Type} (m : M A) : result A := snd m.

Definition print (p : printed) : M unit := call (EvPrint p) (Ok tt).

(** ** Operations on Python values *)

Module Py.

Definition nl : string := String "010" EmptyString.

Definition type_name (v : pyval) : string :=
  match v with
  | PNone => "NoneType"
  | PBool _ => "bool"
  | PInt _ => "int"
  | PFloat _ => "float"
  | PStr _ => "str"
  | PDatetime _ => "datetime.datetime"
  | PList _ => "list"
  | PTuple _ => "tuple"
  | PDict _ => "dict"
  | PObject n _ => n
  end.

(** [k == key] for a [str] [key]: only an equal [str] compares equal. *)
Definition is_key (key : string) (k : pyval) : bool :=
  match k with
  | PStr s => String.eqb s key
  | _ => false
  end.

Definition lookup (key : string) (entries : list (pyval * pyval))
  : option pyval :=
  option_map snd (find (fun kv => is_key key (fst kv)) entries).

(** [isinstance(v, dict) and key in v]. *)
Definition is_dict_with (key : string) (v : pyval) : bool :=
  match v with
  | PDict entries =>
      match lookup key entries with Some _ => true | None => false end
  | _ => false
  end.

(** [d[key]] for a dict [d]. *)
Definition getitem (d : pyval) (key : string) : result pyval :=
  match d with
  | PDict entries =>
      match lookup key entries with
      | Some v => Ok v
      | None => Raise (Pandas.key_error key)
      end
  | _ => Raise (builtin_exn TypeError
                  ("'" ++ type_name d ++ "' object is not subscriptable"))
  end.

(** [d.get(key, default)]; only a [dict] has the method here. *)
Definition get (d : pyval) (key : string) (default : pyval) : result pyval :=
  match d with
  | PDict entries =>
      Ok (match lookup key entries with Some v => v | None => default end)
  | _ => Raise (builtin_exn AttributeError
                  ("'" ++ type_name d ++ "' object has no attribute 'get'"))
  end.

(** What [for entry in v] goes through. *)
Definition iter (v : pyval) : result (list pyval) :=
  match v with
  | PList items | PTuple items => Ok items
  | PStr s => Ok (map (fun c => PStr (PyStr.str1 c)) (PyStr.chars s))
  | PDict entries => Ok (map fst entries)
  | PObject _ (Some items) => Ok items
  | _ => Raise (builtin_exn TypeError
                  ("'" ++ type_name v ++ "' object is not iterable"))
  end.

(** [a, b, c, d, e, f = items]. *)
Definition unpack6 (items : list pyval)
  : result (pyval * pyval * pyval * pyval * pyval * pyval) :=
  match items with
  | [a; b; c; d; e; f] => Ok (a, b, c, d, e, f)
  | _ =>
      if Nat.ltb (List.length items) 6 then
        Raise (builtin_exn ValueError
                 ("not enough values to unpack (expected 6, got "
                    ++ PyStr.of_nat (List.length items) ++ ")"))
      else
        Raise (builtin_exn ValueError
                 "too many values to unpack (expected 6)")
  end.

End Py.

(** ** [class PSXTicker] *)

Record PSXTicker : Type := mkTicker { symbol : string }.

(** [PSXTicker.__init__] *)
Definition PSXTicker_init (symbol : string) : PSXTicker :=
  mkTicker (PyStr.upper symbol).

Definition request_error (msg : string) : exn := mkExn PSXRequestError msg.

(** *** [get_intraday_data] *)

(** [pd.DataFrame([{'timestamp': ts, 'price': price, 'volume': volume}])
      .set_index('timestamp')] *)
Definition snapshot (ts price volume : pyval) : result DataFrame :=
  Pandas.set_index "timestamp"
    (Pandas.of_records ["timestamp"; "price"; "volume"]
                       [[ts; price; volume]]).

Definition get_intraday_data (w : World) (self : PSXTicker)
  : M (pyval + DataFrame) :=
  try_except
    (call (EvReaderIntraday (symbol self))
          (reader_get_intraday_data w (symbol self)))
    any_Exception
    (fun e =>
       try_except
         (data <- call (EvFetchIntraday (symbol self))
                       (fetch_intraday_data w (symbol self)) ;;
          ts <- call EvNow (Ok (now w)) ;;
          price <- lift (Py.get data "price" PNone) ;;
          volume <- lift (Py.get data "volume" PNone) ;;
          df <- lift (snapshot (PDatetime ts) price volume) ;;
          ret (inr df))
         any_Exception
         (fun e2 =>
            raise (request_error
                     ("Failed to fetch intraday data: " ++ exn_str e2)))).

(** *** [get_historical_data] *)

Definition invalid_period : exn :=
  builtin_exn ValueError
    "Invalid period format. Use 'Xmo' or 'Xy' (e.g. '1mo', '1y')".

(** [end_date - timedelta(days=n)] *)
Definition days_before (end_date : datetime) (n : Z) : result datetime :=
  match timedelta_days n with
  | Ok delta => sub_days end_date delta
  | Raise e => Raise e
  end.

(** The start date of a call that gives none (lines 69-77). *)
Definition period_start (period : string) (end_date : datetime)
  : result datetime :=
  match PyInt.int (PyStr.drop_last2 period) with
  | Raise e => Raise e
  | Ok value =>
      let unit := PyStr.last2 period in
      if String.eqb unit "mo" then days_before end_date (value * 30)
      else if String.eqb unit "y" then days_before end_date (value * 365)
      else Raise invalid_period
  end.

(** How a stage of the fallback ends: with the function's return value, or
    with the accumulated [errors] handed to the code that follows. *)
Inductive flow : Type :=
| Return (df : DataFrame)
| Continue (errors : list string).

(** [df[c].mean()] and the like, formatted. *)
Definition column_stat (w : World) (k : stat) (df : DataFrame) (c : string)
  : result string :=
  match Pandas.getitem df c with
  | Raise e => Raise e
  | Ok data =>
      match pd_stat w k data with
      | inl text => Ok text
      | inr (cls, msg) => Raise (builtin_exn cls msg)
      end
  end.

(** The printout of lines 92-101. *)
Definition print_statistics (w : World) (df : DataFrame) : M unit :=
  print (Text (Py.nl ++ "Total days of data: "
                 ++ PyStr.of_nat (Pandas.len df))) ;;;
  print (Text (Py.nl ++ "First 5 entries:")) ;;;
  print (Table (Pandas.head df)) ;;;
  print (Text (Py.nl ++ "Last 5 entries:")) ;;;
  print (Table (Pandas.tail df)) ;;;
  print (Text (Py.nl ++ "Price Statistics:")) ;;;
  average <- lift (column_stat w Mean2f df "close") ;;
  print (Text ("Average price: " ++ average)) ;;;
  highest <- lift (column_stat w Max2f df "high") ;;
  print (Text ("Highest price: " ++ highest)) ;;;
  lowest <- lift (column_stat w Min2f df "low") ;;
  print (Text ("Lowest price: " ++ lowest)) ;;;
  total <- lift (column_stat w Sum0f df "volume") ;;
  print (Text ("Total volume: " ++ total)).

(** The entries of the error accumulator (lines 105 and 138). *)
Definition reader_failure (e : exn) : string :=
  "PSXDataReader error: " ++ exn_str e.

Definition tradingview_failure (e : exn) : string :=
  "TradingView error: " ++ exn_str e.

(** [df.columns = [col.lower() for col in df.columns]] *)
Definition lower_columns (df : DataFrame) : DataFrame :=
  Pandas.set_columns (map PyStr.lower (columns df)) df.

(** Lines 85-103: the body of the first [try]. *)
Definition reader_body (w : World) (self : PSXTicker)
           (start_date end_date : datetime) : M DataFrame :=
  df0 <- call (EvScrapeHistorical (symbol self) start_date end_date)
              (scrape_historical_data w (symbol self) start_date end_date) ;;
  let df := lower_columns df0 in
  (if negb (Pandas.empty df) then print_statistics w df else ret tt) ;;;
  ret df.

(** Lines 83-105: the PSXDataReader source. *)
Definition reader_stage (w : World) (self : PSXTicker)
           (start_date end_date : datetime) (errors : list string) : M flow :=
  try_except
    (df <- reader_body w self start_date end_date ;; ret (Return df))
    is_PSXRequestError
    (fun e => ret (Continue (errors ++ [reader_failure e]))).

(** One turn of the loop of lines 121-131: the record an entry gives, if it
    has the shape asked for. *)
Definition tv_record (w : World) (entry : pyval) : result (option (list pyval)) :=
  match entry with
  | PList items =>
      if Nat.leb 6 (List.length items) then
        match Py.unpack6 items with
        | Ok (date_str, open_val, high, low, close, volume) =>
            match pd_to_datetime w date_str with
            | Ok date => Ok (Some [date; open_val; high; low; close; volume])
            | Raise e => Raise e
            end
        | Raise e => Raise e
        end
      else Ok None
  | _ => Ok None
  end.

(** The loop itself; [data] is the list it appends to. *)
Fixpoint tv_records (w : World) (entries : list pyval)
         (data : list (list pyval)) : result (list (list pyval)) :=
  match entries with
  | [] => Ok data
  | entry :: rest =>
      match tv_record w entry with
      | Raise e => Raise e
      | Ok None => tv_records w rest data
      | Ok (Some r) => tv_records w rest (data ++ [r])
      end
  end.

Definition tv_keys : list string :=
  ["date"; "open"; "high"; "low"; "close"; "volume"].

(** Lines 110-136: the body of the second [try]; [None] when it falls
    through to the code after the [try]. *)
Definition tradingview_body (w : World) (self : PSXTicker)
           (start_date end_date : datetime) : M (option DataFrame) :=
  call EvTradingViewClient (TradingViewClient w) ;;;
  tv_data <- call (EvTradingViewHistorical (symbol self) start_date end_date)
                  (tv_get_historical_data w (symbol self)
                                          start_date end_date) ;;
  if Py.is_dict_with "data" tv_data then
    rows <- lift (Py.getitem tv_data "data") ;;
    entries <- lift (Py.iter rows) ;;
    data <- lift (tv_records w entries []) ;;
    let df := Pandas.of_records tv_keys data in
    if negb (Pandas.empty df) then
      df' <- lift (Pandas.set_index "date" df) ;;
      ret (Some df')
    else ret None
  else ret None.

(** Lines 108-138: the TradingView source. *)
Definition tradingview_stage (w : World) (self : PSXTicker)
           (start_date end_date : datetime) (errors : list string) : M flow :=
  try_except
    (r <- tradingview_body w self start_date end_date ;;
     ret (match r with Some df => Return df | None => Continue errors end))
    any_Exception
    (fun e => ret (Continue (errors ++ [tradingview_failure e]))).

(** Lines 141-143. *)
Fixpoint enumerate (i : nat) (errors : list string) : string :=
  match errors with
  | [] => EmptyString
  | error :: rest =>
      PyStr.of_nat i ++ ". " ++ error ++ Py.nl ++ enumerate (S i) rest
  end.

Definition error_header : string :=
  "Failed to fetch historical data using all available methods:" ++ Py.nl.

Definition error_msg (errors : list string) : string :=
  error_header ++ enumerate 1 errors.

(** Lines 64-77: the effective end and start dates. *)
Definition resolve_range (w : World) (start_date end_date : option datetime)
           (period : string) : M (datetime * datetime) :=
  end_date <- match end_date with
              | None => call EvNow (Ok (now w))
              | Some d => ret d
              end ;;
  start_date <- match start_date with
                | None => lift (period_start period end_date)
                | Some d => ret d
                end ;;
  ret (start_date, end_date).

(** Lines 79-145: the sources in order of preference. *)
Definition try_sources (w : World) (self : PSXTicker)
           (start_date end_date : datetime)
           (use_tradingview use_psx_reader : bool) : M DataFrame :=
  let errors : list string := [] in
  after_reader <-
    (if use_psx_reader
     then reader_stage w self start_date end_date errors
     else ret (Continue errors)) ;;
  match after_reader with
  | Return df => ret df
  | Continue errors =>
      after_tv <-
        (if use_tradingview
         then tradingview_stage w self start_date end_date errors
         else ret (Continue errors)) ;;
      match after_tv with
      | Return df => ret df
      | Continue errors => raise (request_error (error_msg errors))
      end
  end.

Definition get_historical_data (w : World) (self : PSXTicker)
           (start_date end_date : option datetime) (period : string)
           (use_tradingview use_psx_reader : bool) : M DataFrame :=
  range <- resolve_range w start_date end_date period ;;
  try_sources w self (fst range) (snd range) use_tradingview use_psx_reader.

(** ** Vocabulary of the properties *)

(** *** Events by kind *)

Definition scrape_event (ev : event) : bool :=
  match ev with
  | EvScrapeHistorical _ _ _ => true
  | _ => false
  end.

Definition tradingview_event (ev : event) : bool :=
  match ev with
  | EvTradingViewClient | EvTradingViewHistorical _ _ _ => true
  | _ => false
  end.

Definition source_event (ev : event) : bool :=
  (scrape_event ev || tradingview_event ev)%bool.

Definition print_event (ev : event) : bool :=
  match ev with
  | EvPrint _ => true
  | _ => false
  end.

(** *** What the TradingView attempt extracts *)

(** The records the second [try] collects before it builds its table, or
    the exception that ends it; no record when the payload is not a dict with
    a ['data'] key. *)
Definition tv_rows (w : World) (self : PSXTicker)
           (start_date end_date : datetime) : result (list (list pyval)) :=
  match TradingViewClient w with
  | Raise e => Raise e
  | Ok _ =>
      match tv_get_historical_data w (symbol self) start_date end_date with
      | Raise e => Raise e
      | Ok tv_data =>
          if Py.is_dict_with "data" tv_data then
            match Py.getitem tv_data "data" with
            | Raise e => Raise e
            | Ok rows =>
                match Py.iter rows with
                | Raise e => Raise e
                | Ok entries => tv_records w entries []
                end
            end
          else Ok []
      end
  end.

(** The table of the records [data]: indexed by their dates, the other five
    fields as columns. *)
Definition tv_frame (data : list (list pyval)) : DataFrame :=
  mkFrame ["open"; "high"; "low"; "close"; "volume"] (Some "date")
          (map (fun row => nth 0 row PNone) data)
          (map (@tl pyval) data).

(** A malformed entry: not a list, or a list of fewer than 6 elements. *)
Definition malformed (entry : pyval) : bool :=
  match entry with
  | PList items => Nat.ltb (List.length items) 6
  | _ => true
  end.

(** The record of a list entry of exactly 6 elements, read as
    [(date, open, high, low, close, volume)]. *)
Definition row_of (w : World) (entry : pyval) : option (list pyval) :=
  match entry with
  | PList [date_str; open_val; high; low; close; volume] =>
      match pd_to_datetime w date_str with
      | Ok date => Some [date; open_val; high; low; close; volume]
      | Raise _ => None
      end
  | _ => None
  end.

Definition rows_of (w : World) (entries : list pyval) : list (list pyval) :=
  flat_map (fun entry => match row_of w entry with
                         | Some r => [r]
                         | None => []
                         end) entries.

(** The rows the specification speaks of: every list entry of at least 6
    elements, its first six read as [(date, open, high, low, close,
    volume)]. *)
Definition valid_row_of (w : World) (entry : pyval) : option (list pyval) :=
  match entry with
  | PList (date_str :: open_val :: high :: low :: close :: volume :: _) =>
      match pd_to_datetime w date_str with
      | Ok date => Some [date; open_val; high; low; close; volume]
      | Raise _ => None
      end
  | _ => None
  end.

Definition valid_rows_of (w : World) (entries : list pyval)
  : list (list pyval) :=
  flat_map (fun entry => match valid_row_of w entry with
                         | Some r => [r]
                         | None => []
                         end) entries.

(** A payload that holds no row: not a dict with a ['data'] key, or one
    whose ['data'] goes through malformed entries only. *)
Definition no_valid_row (payload : pyval) : Prop :=
  Py.is_dict_with "data" payload = false
  \/ exists rows entries,
      Py.getitem payload "data" = Ok rows
      /\ Py.iter rows = Ok entries
      /\ forallb malformed entries = true.

(** *** The failures a call records *)

Definition reader_failures (w : World) (self : PSXTicker)
           (start_date end_date : datetime) (use_psx_reader : bool)
  : list string :=
  if use_psx_reader then
    match scrape_historical_data w (symbol self) start_date end_date with
    | Raise e => [reader_failure e]
    | Ok _ => []
    end
  else [].

Definition tradingview_failures (w : World) (self : PSXTicker)
           (start_date end_date : datetime) (use_tradingview : bool)
  : list string :=
  if use_tradingview then
    match tv_rows w self start_date end_date with
    | Raise e => [tradingview_failure e]
    | Ok _ => []
    end
  else [].

(** One line per failure, numbered from [i]. *)
Definition numbered_lines (i : nat) (errors : list string) : list string :=
  map (fun ke => PyStr.of_nat (fst ke) ++ ". " ++ snd ke ++ Py.nl)
      (combine (seq i (List.length errors)) errors).

(** The reader gave no table and let the call go on. *)
Definition reader_gave_up (w : World) (self : PSXTicker)
           (start_date end_date : datetime) (use_psx_reader : bool) : Prop :=
  use_psx_reader = false
  \/ exists e, scrape_historical_data w (symbol self) start_date end_date
               = Raise e
               /\ is_PSXRequestError e = true.

(** TradingView gave no table. *)
Definition tradingview_gave_up (w : World) (self : PSXTicker)
           (start_date end_date : datetime) (use_tradingview : bool) : Prop :=
  use_tradingview = false
  \/ tv_rows w self start_date end_date = Ok []
  \/ exists e, tv_rows w self start_date end_date = Raise e.

Definition composite_raised (r : M DataFrame) : Prop :=
  exists e, outcome r = Raise e /\ is_PSXRequestError e = true.

(** What follows the first stage, given the [errors] it left: the events
    and the end of the call. *)
Definition after_reader (w : World) (self : PSXTicker)
           (start_date end_date : datetime) (use_tradingview : bool)
           (errors : list string) : M DataFrame :=
  (if use_tradingview
   then match TradingViewClient w with
        | Ok _ => [EvTradingViewClient;
                   EvTradingViewHistorical (symbol self) start_date end_date]
        | Raise _ => [EvTradingViewClient]
        end
   else [],
   match (if use_tradingview
          then tv_rows w self start_date end_date
          else Ok []) return result DataFrame with
   | Ok [] => Raise (request_error (error_msg errors))
   | Ok data => Ok (tv_frame data)
   | Raise e =>
       Raise (request_error (error_msg (errors ++ [tradingview_failure e])))
   end).

(** *** The statements of the specification that the code does not meet *)

(** An empty table from the reader is not returned and TradingView is
    tried. *)
Definition empty_result_falls_through (w : World) (self : PSXTicker)
           (start_date end_date : option datetime) (period : string)
           (df0 : DataFrame) : Prop :=
  let r := get_historical_data w self start_date end_date period true true in
  outcome r <> Ok (lower_columns df0)
  /\ existsb tradingview_event (trace r) = true.

(** The reader's table comes back with lower-cased labels and TradingView is
    left alone. *)
Definition returns_reader_table (w : World) (self : PSXTicker)
           (start_date end_date : option datetime) (period : string)
           (use_tradingview : bool) (df0 : DataFrame) : Prop :=
  let r := get_historical_data w self start_date end_date period
                               use_tradingview true in
  outcome r = Ok (lower_columns df0)
  /\ existsb tradingview_event (trace r) = false.

(** The call returns the table of the well-formed rows of [entries]. *)
Definition returns_tradingview_table (w : World) (self : PSXTicker)
           (start_date end_date : option datetime) (period : string)
           (use_psx_reader : bool) (entries : list pyval) : Prop :=
  outcome (get_historical_data w self start_date end_date period
                               true use_psx_reader)
  = Ok (tv_frame (valid_rows_of w entries)).

(** A source returned data. *)
Definition reader_returned_data (w : World) (self : PSXTicker)
           (start_date end_date : datetime) : bool :=
  match scrape_historical_data w (symbol self) start_date end_date with
  | Ok df => negb (Pandas.empty df)
  | Raise _ => false
  end.

Definition tradingview_returned_data (w : World) (self : PSXTicker)
           (start_date end_date : datetime) : bool :=
  match tv_rows w self start_date end_date with
  | Ok (_ :: _) => true
  | _ => false
  end.

(** Every enabled source was attempted (the trace [t] shows it) and none
    returned data. *)
Definition sources_exhausted (w : World) (self : PSXTicker)
           (start_date end_date : datetime)
           (use_tradingview use_psx_reader : bool) (t : list event) : Prop :=
  (use_psx_reader = true ->
   existsb scrape_event t = true
   /\ reader_returned_data w self start_date end_date = false)
  /\ (use_tradingview = true ->
      existsb tradingview_event t = true
      /\ tradingview_returned_data w self start_date end_date = false).

(** ** Sample collaborators *)

Module Sample.

Definition today : datetime := ymd 2024 3 31.

Definition stats (_ : stat) (_ : list (list pyval))
  : string + builtin_class * string := inl "0.00".

(** A world whose historical sources answer [reader] and [tv], and whose
    intraday sources answer [primary] and [secondary]. *)
Definition world (reader : result DataFrame) (tv : result pyval)
           (primary : result (pyval + DataFrame))
           (secondary : result pyval) : World :=
  mkWorld today (fun _ _ _ => reader) (fun _ => primary)
          (fun _ => secondary) (Ok tt) (fun _ _ _ => tv)
          (fun x => Ok x) stats.

Definition historical (reader : result DataFrame) (tv : result pyval)
  : World :=
  world reader tv (Ok (inl PNone)) (Ok PNone).

Definition intraday (primary : result (pyval + DataFrame))
           (secondary : result pyval) : World :=
  world (Raise (request_error "unused")) (Ok PNone) primary secondary.

Definition hbl : PSXTicker := PSXTicker_init "hbl".

Definition empty_table : DataFrame :=
  mkFrame ["Date"; "Close"] None [] [].

Definition ohlcv_table : DataFrame :=
  mkFrame ["Open"; "High"; "Low"; "Close"; "Volume"] (Some "Date")
          [PStr "2024-03-29"]
          [[PInt 101; PInt 105; PInt 99; PInt 104; PInt 5000]].

Definition open_only_table : DataFrame :=
  mkFrame ["Open"] (Some "Date") [PStr "2024-03-29"] [[PInt 101]].

Definition row6 : pyval :=
  PList [PStr "2024-03-29"; PInt 101; PInt 105; PInt 99; PInt 104;
         PInt 5000].

Definition row7 : pyval :=
  PList [PStr "2024-03-29"; PInt 101; PInt 105; PInt 99; PInt 104;
         PInt 5000; PInt 0].

Definition payload (entries : list pyval) : pyval :=
  PDict [(PStr "data", PList entries)].

Definition timeout : exn :=
  builtin_exn (OtherException "TimeoutError") "timed out".

Definition quote : pyval :=
  PDict [(PStr "price", PInt 104); (PStr "volume", PInt 5000);
         (PStr "timestamp", PStr "2020-01-01 09:30:00")].

End Sample.

(** ** Further vocabulary *)

(** A text of decimal digits and the number it writes. *)
Definition all_digits (ds : string) : bool :=
  forallb PyStr.is_digit (PyStr.chars ds).

Definition decimal_value (ds : string) : Z :=
  fold_left (fun acc c => acc * 10 + PyStr.digit_value c) (PyStr.chars ds) 0.

(** The start date lies within what [timedelta] and [datetime] can hold. *)
Definition days_in_range (end_date : datetime) (n : Z) : Prop :=
  Z.abs n <= max_delta_days
  /\ min_ordinal <= ordinal end_date - n <= max_ordinal.

(** How often events of a kind occur. *)
Definition count_events (p : event -> bool) (t : list event) : nat :=
  List.length (filter p t).

Definition now_event (ev : event) : bool :=
  match ev with
  | EvNow => true
  | _ => false
  end.

(** A request to a historical source is made for this ticker and range. *)
Definition addressed_to (self : PSXTicker) (start_date end_date : datetime)
           (ev : event) : Prop :=
  match ev with
  | EvScrapeHistorical s a b | EvTradingViewHistorical s a b =>
      s = symbol self /\ a = start_date /\ b = end_date
  | _ => True
  end.

(** Values of the built-in types that have no [get] method. *)
Definition lacks_get (v : pyval) : bool :=
  match v with
  | PDict _ | PObject _ _ => false
  | _ => true
  end.

(** The shape of a table built from TradingView's rows. *)
Definition tradingview_shaped (df : DataFrame) : Prop :=
  columns df = ["open"; "high"; "low"; "close"; "volume"]
  /\ index_name df = Some "date"
  /\ List.length (index df) = List.length (cells df)
  /\ (0 < List.length (index df))%nat
  /\ Forall (fun row => List.length row = 5%nat) (cells df).

Definition tradingview_request_event (ev : event) : bool :=
  match ev with
  | EvTradingViewHistorical _ _ _ => true
  | _ => false
  end.

(** A [pd.to_datetime] that accepts texts only, and a world that has no
    other. *)
Definition texts_only (x : pyval) : result pyval :=
  match x with
  | PStr _ => Ok x
  | _ => Raise (builtin_exn TypeError
                  ("'" ++ Py.type_name x ++ "' is not convertible to datetime"))
  end.

Definition strict_world (tv : result pyval) : World :=
  mkWorld Sample.today (fun _ _ _ => Raise (request_error "no data"))
          (fun _ => Ok (inl PNone)) (fun _ => Ok PNone) (Ok tt)
          (fun _ _ _ => tv) texts_only Sample.stats.

(** * Properties *)

(** ** The period string *)

Section Period.

Lemma chars_app (s t : string) :
  PyStr.chars (s ++ t) = (PyStr.chars s ++ PyStr.chars t)%list.
Proof.
  induction s as [|c s IH]; simpl; [reflexivity|].
  unfold PyStr.chars in *. simpl. now rewrite IH.
Qed.

Lemma of_chars_inj (l1 l2 : list ascii) :
  PyStr.of_chars l1 = PyStr.of_chars l2 -> l1 = l2.
Proof.
  intros H. apply (f_equal list_ascii_of_string) in H.
  unfold PyStr.of_chars in H.
  now rewrite !list_ascii_of_string_of_list_ascii in H.
Qed.

(** The last character of [s[-2:]] is the last character of [s]. *)
Lemma last2_ends_with (s : string) (c : ascii) :
  exists l, PyStr.last2 (s ++ PyStr.str1 c) = PyStr.of_chars (l ++ [c]).
Proof.
  unfold PyStr.last2. rewrite chars_app.
  replace (PyStr.chars (PyStr.str1 c)) with [c] by reflexivity.
  set (l := PyStr.chars s).
  rewrite length_app. simpl List.length.
  rewrite skipn_app.
  replace (List.length l + 1 - 2 - List.length l)%nat with 0%nat by lia.
  simpl skipn at 2. eexists. reflexivity.
Qed.

Lemma last2_years_not_months (s : string) : PyStr.last2 (s ++ "y") <> "mo".
Proof.
  destruct (last2_ends_with s "y") as [l Hl].
  change (PyStr.str1 "y") with "y" in Hl. rewrite Hl.
  change "mo" with (PyStr.of_chars (["m"%char] ++ ["o"%char])).
  intros H. apply of_chars_inj in H.
  apply app_inj_tail in H. destruct H as [_ H]. discriminate H.
Qed.

(** [int] fails with a [ValueError] only. *)
Lemma int_raises_ValueError (s : string) (e : exn) :
  PyInt.int s = Raise e -> exists msg, e = builtin_exn ValueError msg.
Proof.
  unfold PyInt.int.
  match goal with
  | |- context [let '(_, _) := ?p in _] => destruct p as [neg ds]
  end.
  destruct (PyInt.digits false 0 0 ds) as [[v n]|].
  - destruct (Nat.ltb PyInt.max_str_digits n).
    + intros H. injection H as <-. eexists. reflexivity.
    + discriminate.
  - intros H. injection H as <-. eexists. reflexivity.
Qed.

(** When the two-character slice is ["y"], the string is ["y"] and no
    digit is left for [int]. *)
Lemma year_unit_leaves_no_digits (period : string) :
  PyStr.last2 period = "y" -> PyStr.drop_last2 period = EmptyString.
Proof.
  unfold PyStr.last2, PyStr.drop_last2. intros H.
  change "y" with (PyStr.of_chars ["y"%char]) in H.
  apply of_chars_inj in H.
  apply (f_equal (@List.length ascii)) in H.
  rewrite length_skipn in H. simpl in H.
  replace (List.length (PyStr.chars period) - 2)%nat with 0%nat by lia.
  reflexivity.
Qed.

(** The branch [elif unit == 'y'] is never taken: [int] has failed
    before. *)
Lemma year_branch_unreachable (period : string) :
  PyStr.last2 period = "y" ->
  PyInt.int (PyStr.drop_last2 period)
  = Raise (PyInt.invalid_literal EmptyString).
Proof.
  intros H. rewrite (year_unit_leaves_no_digits _ H). reflexivity.
Qed.

(** Every period that does not end in ["mo"] is refused with a
    [ValueError]. *)
Lemma not_months_rejected (period : string) (end_date : datetime) :
  PyStr.last2 period <> "mo" ->
  exists msg,
    period_start period end_date = Raise (builtin_exn ValueError msg).
Proof.
  intros Hmo. unfold period_start.
  destruct (PyInt.int (PyStr.drop_last2 period)) as [v|e] eqn:Hint.
  - destruct (String.eqb_spec (PyStr.last2 period) "mo") as [|_];
      [contradiction|].
    destruct (String.eqb_spec (PyStr.last2 period) "y") as [Hy|_].
    + rewrite (year_branch_unreachable _ Hy) in Hint. discriminate.
    + eexists. reflexivity.
  - destruct (int_raises_ValueError _ _ Hint) as [msg ->]. now exists msg.
Qed.

(** A period in months, once [int] has read its count. *)
Lemma months_start (period : string) (end_date : datetime) (value : Z) :
  PyStr.last2 period = "mo" ->
  PyInt.int (PyStr.drop_last2 period) = Ok value ->
  Z.abs (value * 30) <= max_delta_days ->
  min_ordinal <= ordinal end_date - value * 30 <= max_ordinal ->
  period_start period end_date
  = Ok (mkDatetime (ordinal end_date - value * 30) (micros end_date)).
Proof.
  intros Hu Hv Hd Ho. unfold period_start. rewrite Hv, Hu. simpl.
  unfold days_before, timedelta_days.
  destruct (Z.leb_spec (Z.abs (value * 30)) max_delta_days); [|lia].
  unfold sub_days.
  destruct (Z.leb_spec min_ordinal (ordinal end_date - value * 30)); [|lia].
  destruct (Z.leb_spec (ordinal end_date - value * 30) max_ordinal); [|lia].
  reflexivity.
Qed.

(** The example of the specification: one month back from 2024-03-31 is
    2024-03-01. *)
Example one_month_before_march_31 :
  period_start "1mo" (ymd 2024 3 31) = Ok (ymd 2024 3 1).
Proof. reflexivity. Qed.

Example three_weeks_refused :
  period_start "3wk" (ymd 2024 3 31) = Raise invalid_period.
Proof. reflexivity. Qed.

Lemma resolve_range_quiet (w : World) (start_date end_date : option datetime)
      (period : string) :
  existsb source_event (trace (resolve_range w start_date end_date period))
  = false.
Proof.
  unfold resolve_range, trace.
  destruct end_date as [d|], start_date as [s|]; simpl; try reflexivity.
  - destruct (period_start period d); reflexivity.
  - destruct (period_start period (now w)); reflexivity.
Qed.

End Period.

(** C1: for every period of the form [<int>y] the call should start 365*int
    days before the end date; the code never does so.  Whatever precedes the
    final [y], [get_historical_data] fails with a [ValueError] before a
    source is contacted, because the unit is read as the last two
    characters. *)
Theorem period_years_rejected (w : World) (self : PSXTicker)
        (end_date : option datetime) (s : string)
        (use_tradingview use_psx_reader : bool) :
  let r := get_historical_data w self None end_date (s ++ "y")
                               use_tradingview use_psx_reader in
  (exists msg, outcome r = Raise (builtin_exn ValueError msg))
  /\ existsb source_event (trace r) = false.
Proof.
  unfold get_historical_data, resolve_range.
  destruct end_date as [d|]; simpl.
  - destruct (not_months_rejected (s ++ "y") d (last2_years_not_months s))
      as [msg ->]. simpl. split; [now exists msg | reflexivity].
  - destruct (not_months_rejected (s ++ "y") (now w)
                                  (last2_years_not_months s))
      as [msg ->]. simpl. split; [now exists msg | reflexivity].
Qed.

Example one_year_refused (w : World) :
  get_historical_data w Sample.hbl None (Some Sample.today) "1y" true true
  = ([], Raise (PyInt.invalid_literal EmptyString)).
Proof. reflexivity. Qed.

Example twelve_years_refused (w : World) :
  get_historical_data w Sample.hbl None (Some Sample.today) "12y" true true
  = ([], Raise invalid_period).
Proof. reflexivity. Qed.

(** ** The statistics printout *)

Section Statistics.

Variable w : World.

Lemma column_stat_not_request_error k df c e :
  column_stat w k df c = Raise e -> is_PSXRequestError e = false.
Proof.
  unfold column_stat, Pandas.getitem.
  destruct (Pandas.positions c (columns df) 0).
  - intros H. injection H as <-. reflexivity.
  - destruct (pd_stat w k _) as [text|[cls msg]]; [discriminate|].
    intros H. injection H as <-. reflexivity.
Qed.

Lemma positions_nil c labels i :
  Pandas.positions c labels i = [] <-> ~ In c labels.
Proof.
  revert i. induction labels as [|l ls IH]; intros i; simpl.
  - tauto.
  - destruct (String.eqb_spec l c) as [->|Hne].
    + split; [discriminate | intros H; exfalso; apply H; now left].
    + rewrite IH. tauto.
Qed.

(** [df[c]] on a table without the label [c]. *)
Lemma column_stat_missing k df c :
  ~ In c (columns df) ->
  column_stat w k df c = Raise (Pandas.key_error c).
Proof.
  intros H. unfold column_stat, Pandas.getitem.
  apply (positions_nil c (columns df) 0) in H. now rewrite H.
Qed.

Ltac stat_cases df :=
  destruct (column_stat w Mean2f df "close") as [?|?] eqn:?; simpl;
  [destruct (column_stat w Max2f df "high") as [?|?] eqn:?; simpl;
   [destruct (column_stat w Min2f df "low") as [?|?] eqn:?; simpl;
    [destruct (column_stat w Sum0f df "volume") as [?|?] eqn:?; simpl
    |]|]|].

Lemma print_statistics_not_request_error df e :
  outcome (print_statistics w df) = Raise e -> is_PSXRequestError e = false.
Proof.
  unfold print_statistics, outcome. simpl.
  stat_cases df; intros H; try discriminate H; injection H as <-;
    eauto using column_stat_not_request_error.
Qed.

Lemma print_statistics_only_prints df :
  forallb print_event (trace (print_statistics w df)) = true.
Proof.
  unfold print_statistics, trace. simpl.
  stat_cases df; reflexivity.
Qed.

(** The printout succeeds exactly when the four figures can be computed. *)
Lemma print_statistics_succeeds df :
  outcome (print_statistics w df) = Ok tt
  <-> (exists a, column_stat w Mean2f df "close" = Ok a)
      /\ (exists a, column_stat w Max2f df "high" = Ok a)
      /\ (exists a, column_stat w Min2f df "low" = Ok a)
      /\ (exists a, column_stat w Sum0f df "volume" = Ok a).
Proof.
  unfold print_statistics, outcome. simpl.
  stat_cases df; split; intros H; try discriminate H; try reflexivity;
    try (repeat split; eexists; reflexivity);
    destruct H as [[? ?] [[? ?] [[? ?] [? ?]]]]; discriminate.
Qed.

(** A missing column makes the printout fail. *)
Lemma print_statistics_missing_column df c :
  In c ["close"; "high"; "low"; "volume"] ->
  ~ In c (columns df) ->
  exists e, outcome (print_statistics w df) = Raise e.
Proof.
  intros Hc Hmiss.
  destruct (outcome (print_statistics w df)) as [[]|e] eqn:E;
    [|now exists e].
  apply print_statistics_succeeds in E.
  destruct E as [[a1 H1] [[a2 H2] [[a3 H3] [a4 H4]]]].
  simpl in Hc.
  destruct Hc as [<-|[<-|[<-|[<-|[]]]]];
    rewrite (column_stat_missing _ _ _ Hmiss) in *; discriminate.
Qed.

Lemma prints_are_not_tradingview (t : list event) :
  forallb print_event t = true -> existsb tradingview_event t = false.
Proof.
  induction t as [|ev t IH]; simpl; [reflexivity|].
  intros H. apply andb_true_iff in H as [H1 H2]. rewrite (IH H2).
  destruct ev; simpl in *; congruence.
Qed.

End Statistics.

(** ** The two stages *)

Section Stages.

Variables (w : World) (self : PSXTicker) (sd ed : datetime).

Lemma empty_lower_columns (df : DataFrame) :
  Pandas.empty (lower_columns df) = Pandas.empty df.
Proof.
  unfold Pandas.empty, lower_columns, Pandas.set_columns. simpl.
  now rewrite length_map.
Qed.

Lemma reader_body_outcome :
  outcome (reader_body w self sd ed)
  = match scrape_historical_data w (symbol self) sd ed with
    | Raise e => Raise e
    | Ok df0 =>
        if Pandas.empty df0 then Ok (lower_columns df0)
        else match outcome (print_statistics w (lower_columns df0)) with
             | Ok _ => Ok (lower_columns df0)
             | Raise e => Raise e
             end
    end.
Proof.
  unfold reader_body, outcome, call.
  destruct (scrape_historical_data w (symbol self) sd ed) as [df0|e];
    simpl; [|reflexivity].
  rewrite empty_lower_columns.
  destruct (Pandas.empty df0); simpl; [reflexivity|].
  destruct (print_statistics w (lower_columns df0)) as [t [[]|e]];
    reflexivity.
Qed.

Lemma reader_body_trace :
  trace (reader_body w self sd ed)
  = EvScrapeHistorical (symbol self) sd ed ::
    match scrape_historical_data w (symbol self) sd ed with
    | Raise e => []
    | Ok df0 =>
        if Pandas.empty df0 then []
        else trace (print_statistics w (lower_columns df0))
    end.
Proof.
  unfold reader_body, trace, call.
  destruct (scrape_historical_data w (symbol self) sd ed) as [df0|e];
    simpl; [|reflexivity].
  rewrite empty_lower_columns.
  destruct (Pandas.empty df0); simpl; [reflexivity|].
  destruct (print_statistics w (lower_columns df0)) as [t [[]|e]]; simpl;
    [now rewrite app_nil_r | reflexivity].
Qed.

Lemma reader_body_leaves_tradingview :
  existsb tradingview_event (trace (reader_body w self sd ed)) = false.
Proof.
  rewrite reader_body_trace. simpl.
  destruct (scrape_historical_data w (symbol self) sd ed) as [df0|e];
    [|reflexivity].
  destruct (Pandas.empty df0); [reflexivity|].
  apply prints_are_not_tradingview, print_statistics_only_prints.
Qed.

(** A [PSXRequestError] out of the first [try] comes from the scraper. *)
Lemma reader_body_request_error e :
  outcome (reader_body w self sd ed) = Raise e ->
  is_PSXRequestError e = true ->
  scrape_historical_data w (symbol self) sd ed = Raise e.
Proof.
  rewrite reader_body_outcome.
  destruct (scrape_historical_data w (symbol self) sd ed) as [df0|e0].
  - destruct (Pandas.empty df0); [discriminate|].
    destruct (outcome (print_statistics w (lower_columns df0)))
      as [[]|e1] eqn:E; [discriminate|].
    intros H. injection H as ->. intros H.
    rewrite (print_statistics_not_request_error _ _ _ E) in H.
    discriminate.
  - intros H. injection H as ->. reflexivity.
Qed.

Lemma reader_stage_eq errors :
  reader_stage w self sd ed errors
  = (trace (reader_body w self sd ed),
     match outcome (reader_body w self sd ed) with
     | Ok df => Ok (Return df)
     | Raise e =>
         if is_PSXRequestError e
         then Ok (Continue (errors ++ [reader_failure e]))
         else Raise e
     end).
Proof.
  unfold reader_stage, trace, outcome.
  destruct (reader_body w self sd ed) as [t [df|e]]; simpl.
  - now rewrite app_nil_r.
  - destruct (is_PSXRequestError e); simpl;
      [now rewrite app_nil_r | reflexivity].
Qed.

Ltac tv_cases :=
  unfold tradingview_stage, tradingview_body, tv_rows, trace, outcome, call;
  destruct (TradingViewClient w) as [[]|?]; simpl; [|reflexivity];
  destruct (tv_get_historical_data w (symbol self) sd ed) as [tv_data|?];
  simpl; [|reflexivity];
  destruct (Py.is_dict_with "data" tv_data); simpl; [|reflexivity];
  destruct (Py.getitem tv_data "data") as [rows|?]; simpl; [|reflexivity];
  destruct (Py.iter rows) as [entries|?]; simpl; [|reflexivity];
  destruct (tv_records w entries []) as [[|r data]|?]; simpl; reflexivity.

(** The second stage never raises: it returns the table of the records it
    found, or goes on, having recorded the exception if there was one. *)
Lemma tradingview_stage_outcome errors :
  outcome (tradingview_stage w self sd ed errors)
  = Ok (match tv_rows w self sd ed with
        | Raise e => Continue (errors ++ [tradingview_failure e])
        | Ok [] => Continue errors
        | Ok data => Return (tv_frame data)
        end).
Proof. tv_cases. Qed.

Lemma tradingview_stage_trace errors :
  trace (tradingview_stage w self sd ed errors)
  = match TradingViewClient w with
    | Ok _ =>
        [EvTradingViewClient; EvTradingViewHistorical (symbol self) sd ed]
    | Raise _ => [EvTradingViewClient]
    end.
Proof. tv_cases. Qed.

Lemma tradingview_stage_attempted errors :
  existsb tradingview_event (trace (tradingview_stage w self sd ed errors))
  = true.
Proof.
  rewrite tradingview_stage_trace.
  destruct (TradingViewClient w); reflexivity.
Qed.


End Stages.

(** ** The sources in order *)

Section Orchestration.

Variables (w : World) (self : PSXTicker) (sd ed : datetime).

(** The reader's table ends the call. *)
Lemma try_sources_reader_returns use_tv df :
  outcome (reader_body w self sd ed) = Ok df ->
  try_sources w self sd ed use_tv true
  = (trace (reader_body w self sd ed), Ok df).
Proof.
  intros H. unfold try_sources. rewrite reader_stage_eq, H. simpl.
  now rewrite app_nil_r.
Qed.

(** An exception of another class out of the first [try] ends it too. *)
Lemma try_sources_reader_aborts use_tv e :
  outcome (reader_body w self sd ed) = Raise e ->
  is_PSXRequestError e = false ->
  try_sources w self sd ed use_tv true
  = (trace (reader_body w self sd ed), Raise e).
Proof.
  intros H Hc. unfold try_sources. rewrite reader_stage_eq, H, Hc.
  reflexivity.
Qed.

Lemma after_stage (use_tv : bool) (errors : list string) :
  bind (if use_tv
        then tradingview_stage w self sd ed errors
        else ret (Continue errors))
       (fun after_tv =>
          match after_tv with
          | Return df => ret df
          | Continue errors => raise (request_error (error_msg errors))
          end)
  = after_reader w self sd ed use_tv errors.
Proof.
  unfold after_reader. destruct use_tv; [|reflexivity].
  pose proof (tradingview_stage_outcome w self sd ed errors) as Ho.
  pose proof (tradingview_stage_trace w self sd ed errors) as Ht.
  unfold outcome, trace in Ho, Ht.
  destruct (tradingview_stage w self sd ed errors) as [t r].
  simpl in Ho, Ht. subst t r.
  destruct (tv_rows w self sd ed) as [[|row data]|e]; simpl;
    now rewrite app_nil_r.
Qed.

Lemma try_sources_reader_disabled use_tv :
  try_sources w self sd ed use_tv false = after_reader w self sd ed use_tv [].
Proof.
  unfold try_sources. cbn [bind ret]. rewrite after_stage.
  now destruct (after_reader w self sd ed use_tv []).
Qed.

Lemma try_sources_reader_failed use_tv e :
  scrape_historical_data w (symbol self) sd ed = Raise e ->
  is_PSXRequestError e = true ->
  try_sources w self sd ed use_tv true
  = (EvScrapeHistorical (symbol self) sd ed
       :: fst (after_reader w self sd ed use_tv [reader_failure e]),
     snd (after_reader w self sd ed use_tv [reader_failure e])).
Proof.
  intros H Hc. unfold try_sources.
  rewrite reader_stage_eq, reader_body_outcome, reader_body_trace, H, Hc.
  cbn [bind app]. rewrite after_stage.
  now destruct (after_reader w self sd ed use_tv [reader_failure e]).
Qed.

End Orchestration.

(** ** The whole call *)

Section WholeCall.

Variables (w : World) (self : PSXTicker).
Variables (start_date end_date : option datetime) (period : string).
Variables (t0 : list event) (sd ed : datetime).
Hypothesis resolved :
  resolve_range w start_date end_date period = (t0, Ok (sd, ed)).

Lemma get_historical_data_resolved use_tv use_rd :
  get_historical_data w self start_date end_date period use_tv use_rd
  = ((t0 ++ trace (try_sources w self sd ed use_tv use_rd))%list,
     outcome (try_sources w self sd ed use_tv use_rd)).
Proof.
  unfold get_historical_data. rewrite resolved. simpl.
  now destruct (try_sources w self sd ed use_tv use_rd).
Qed.

Lemma resolved_quiet : existsb tradingview_event t0 = false.
Proof.
  pose proof (resolve_range_quiet w start_date end_date period) as H.
  rewrite resolved in H. simpl in H.
  clear -H. induction t0 as [|ev t IH]; simpl in *; [reflexivity|].
  apply orb_false_iff in H as [H1 H2]. rewrite (IH H2).
  unfold source_event in H1. apply orb_false_iff in H1 as [_ ->].
  reflexivity.
Qed.

(** As long as the first [try] does not end in a [PSXRequestError],
    TradingView is left alone. *)
Lemma reader_ends_call use_tv (r : result DataFrame) :
  outcome (reader_body w self sd ed) = r ->
  (forall e, r = Raise e -> is_PSXRequestError e = false) ->
  get_historical_data w self start_date end_date period use_tv true
  = ((t0 ++ trace (reader_body w self sd ed))%list, r).
Proof.
  intros H Hc. rewrite get_historical_data_resolved.
  destruct r as [df|e].
  - now rewrite (try_sources_reader_returns _ _ _ _ use_tv df H).
  - now rewrite (try_sources_reader_aborts _ _ _ _ use_tv e H (Hc e eq_refl)).
Qed.

Lemma reader_ends_call_quietly use_tv (r : result DataFrame) :
  outcome (reader_body w self sd ed) = r ->
  (forall e, r = Raise e -> is_PSXRequestError e = false) ->
  existsb tradingview_event
    (trace (get_historical_data w self start_date end_date period
                                use_tv true)) = false.
Proof.
  intros H Hc. rewrite (reader_ends_call use_tv r H Hc).
  unfold trace at 1. simpl. rewrite existsb_app, resolved_quiet.
  apply reader_body_leaves_tradingview.
Qed.

End WholeCall.

(** C2, as the specification words it, fails: the reader answers with an
    empty table while TradingView holds a well-formed row, and the call
    returns the empty table without turning to TradingView. *)
Lemma empty_reader_table_not_fallen_through :
  let w := Sample.historical (Ok Sample.empty_table)
                             (Ok (Sample.payload [Sample.row6])) in
  scrape_historical_data w (symbol Sample.hbl) (ymd 2024 3 1) Sample.today
  = Ok Sample.empty_table
  /\ Pandas.empty Sample.empty_table = true
  /\ ~ empty_result_falls_through w Sample.hbl None None "1mo"
                                  Sample.empty_table.
Proof.
  split; [reflexivity|]. split; [reflexivity|].
  intros [H _]. apply H. reflexivity.
Qed.

(** C2, amended: when the reader succeeds with an empty table, that table,
    its labels lower-cased, is the result of the call; nothing is printed
    and TradingView is not invoked. *)
Theorem reader_empty_table_returned (w : World) (self : PSXTicker)
        (start_date end_date : option datetime) (period : string)
        (use_tradingview : bool) (t0 : list event) (sd ed : datetime)
        (df0 : DataFrame) :
  resolve_range w start_date end_date period = (t0, Ok (sd, ed)) ->
  scrape_historical_data w (symbol self) sd ed = Ok df0 ->
  Pandas.empty df0 = true ->
  get_historical_data w self start_date end_date period use_tradingview true
  = ((t0 ++ [EvScrapeHistorical (symbol self) sd ed])%list,
     Ok (lower_columns df0)).
Proof.
  intros Hr Hs He.
  rewrite (reader_ends_call w self _ _ _ t0 sd ed Hr use_tradingview
                            (Ok (lower_columns df0))).
  - now rewrite reader_body_trace, Hs, He.
  - now rewrite reader_body_outcome, Hs, He.
  - discriminate.
Qed.

Lemma reader_empty_table_returned_witness :
  get_historical_data
    (Sample.historical (Ok Sample.empty_table)
                       (Ok (Sample.payload [Sample.row6])))
    Sample.hbl None None "1mo" true true
  = ([EvNow; EvScrapeHistorical "HBL" (ymd 2024 3 1) Sample.today],
     Ok (lower_columns Sample.empty_table)).
Proof.
  apply (reader_empty_table_returned
           (Sample.historical (Ok Sample.empty_table)
                              (Ok (Sample.payload [Sample.row6])))
           Sample.hbl None None "1mo" true [EvNow] (ymd 2024 3 1)
           Sample.today Sample.empty_table); reflexivity.
Defined.

(** C3, as the specification words it, fails: the reader answers with a
    table of one row that has no [close] column, and the call ends with a
    [KeyError] instead of the table. *)
Lemma reader_table_without_close_not_returned :
  let w := Sample.historical (Ok Sample.open_only_table) (Ok PNone) in
  scrape_historical_data w (symbol Sample.hbl) (ymd 2024 3 1) Sample.today
  = Ok Sample.open_only_table
  /\ Pandas.empty Sample.open_only_table = false
  /\ ~ returns_reader_table w Sample.hbl None None "1mo" true
                            Sample.open_only_table.
Proof.
  split; [reflexivity|]. split; [reflexivity|].
  intros [H _]. vm_compute in H. discriminate H.
Qed.

(** C3, amended: when the reader returns a table that is not empty and on
    which the statistics printout succeeds, the call returns that table with
    its labels lower-cased, its index and cells as they were, and
    TradingView is not invoked. *)
Theorem reader_table_returned (w : World) (self : PSXTicker)
        (start_date end_date : option datetime) (period : string)
        (use_tradingview : bool) (t0 : list event) (sd ed : datetime)
        (df0 : DataFrame) :
  resolve_range w start_date end_date period = (t0, Ok (sd, ed)) ->
  scrape_historical_data w (symbol self) sd ed = Ok df0 ->
  Pandas.empty df0 = false ->
  outcome (print_statistics w (lower_columns df0)) = Ok tt ->
  let r := get_historical_data w self start_date end_date period
                               use_tradingview true in
  outcome r = Ok (lower_columns df0)
  /\ columns (lower_columns df0) = map PyStr.lower (columns df0)
  /\ index_name (lower_columns df0) = index_name df0
  /\ index (lower_columns df0) = index df0
  /\ cells (lower_columns df0) = cells df0
  /\ existsb tradingview_event (trace r) = false.
Proof.
  intros Hr Hs He Hp r.
  assert (Ho : outcome (reader_body w self sd ed) = Ok (lower_columns df0)).
  { now rewrite reader_body_outcome, Hs, He, Hp. }
  assert (Hc : forall e, Ok (lower_columns df0) = Raise e ->
                         is_PSXRequestError e = false) by discriminate.
  repeat split.
  - unfold r.
    now rewrite (reader_ends_call w self _ _ _ t0 sd ed Hr use_tradingview
                                  _ Ho Hc).
  - exact (reader_ends_call_quietly w self _ _ _ t0 sd ed Hr use_tradingview
                                    _ Ho Hc).
Qed.

Lemma reader_table_returned_witness :
  let r := get_historical_data
             (Sample.historical (Ok Sample.ohlcv_table) (Ok PNone))
             Sample.hbl None None "1mo" true true in
  outcome r = Ok (lower_columns Sample.ohlcv_table)
  /\ columns (lower_columns Sample.ohlcv_table)
     = map PyStr.lower (columns Sample.ohlcv_table)
  /\ index_name (lower_columns Sample.ohlcv_table)
     = index_name Sample.ohlcv_table
  /\ index (lower_columns Sample.ohlcv_table) = index Sample.ohlcv_table
  /\ cells (lower_columns Sample.ohlcv_table) = cells Sample.ohlcv_table
  /\ existsb tradingview_event (trace r) = false.
Proof.
  apply (reader_table_returned
           (Sample.historical (Ok Sample.ohlcv_table) (Ok PNone))
           Sample.hbl None None "1mo" true [EvNow] (ymd 2024 3 1)
           Sample.today Sample.ohlcv_table); reflexivity.
Defined.

(** C10: when the reader returns a table that is not empty and one of the
    columns [close], [high], [low], [volume] is absent from its lower-cased
    labels, the statistics step raises an exception that is not a
    [PSXRequestError]; it is not caught, TradingView is not tried, and the
    call ends with that exception. *)
Theorem missing_statistics_column_aborts (w : World) (self : PSXTicker)
        (start_date end_date : option datetime) (period : string)
        (use_tradingview : bool) (t0 : list event) (sd ed : datetime)
        (df0 : DataFrame) (c : string) :
  resolve_range w start_date end_date period = (t0, Ok (sd, ed)) ->
  scrape_historical_data w (symbol self) sd ed = Ok df0 ->
  Pandas.empty df0 = false ->
  In c ["close"; "high"; "low"; "volume"] ->
  ~ In c (columns (lower_columns df0)) ->
  let r := get_historical_data w self start_date end_date period
                               use_tradingview true in
  exists e,
    outcome (print_statistics w (lower_columns df0)) = Raise e
    /\ outcome r = Raise e
    /\ is_PSXRequestError e = false
    /\ existsb tradingview_event (trace r) = false.
Proof.
  intros Hr Hs He Hc Hmiss r.
  destruct (print_statistics_missing_column w _ c Hc Hmiss) as [e Hp].
  assert (Ho : outcome (reader_body w self sd ed) = Raise e).
  { now rewrite reader_body_outcome, Hs, He, Hp. }
  assert (Hk : forall e', @Raise DataFrame e = Raise e' ->
                          is_PSXRequestError e' = false).
  { intros e' H. injection H as <-.
    exact (print_statistics_not_request_error w _ _ Hp). }
  exists e. repeat split.
  - exact Hp.
  - unfold r.
    now rewrite (reader_ends_call w self _ _ _ t0 sd ed Hr use_tradingview
                                  _ Ho Hk).
  - exact (Hk e eq_refl).
  - exact (reader_ends_call_quietly w self _ _ _ t0 sd ed Hr use_tradingview
                                    _ Ho Hk).
Qed.

Lemma missing_statistics_column_aborts_witness :
  let w := Sample.historical (Ok Sample.open_only_table)
                             (Ok (Sample.payload [Sample.row6])) in
  let r := get_historical_data w Sample.hbl None None "1mo" true true in
  exists e,
    outcome (print_statistics w (lower_columns Sample.open_only_table))
    = Raise e
    /\ outcome r = Raise e
    /\ is_PSXRequestError e = false
    /\ existsb tradingview_event (trace r) = false.
Proof.
  apply (missing_statistics_column_aborts
           (Sample.historical (Ok Sample.open_only_table)
                              (Ok (Sample.payload [Sample.row6])))
           Sample.hbl None None "1mo" true [EvNow] (ymd 2024 3 1)
           Sample.today Sample.open_only_table "volume");
    try reflexivity.
  - simpl. tauto.
  - simpl. intros [H|[]]. discriminate H.
Defined.

(** ** Which exceptions each stage catches *)



(** ** Attempts that leave no trace in the accumulator *)

Section Rows.

Variable w : World.

Lemma malformed_gives_no_record entry :
  malformed entry = true -> tv_record w entry = Ok None.
Proof.
  destruct entry; try reflexivity. unfold malformed, tv_record. intros H.
  apply Nat.ltb_lt in H.
  destruct (Nat.leb_spec 6 (List.length items)); [lia | reflexivity].
Qed.

Lemma malformed_entries_give_no_rows entries data :
  forallb malformed entries = true -> tv_records w entries data = Ok data.
Proof.
  induction entries as [|entry rest IH]; simpl; [reflexivity|].
  intros H. apply andb_true_iff in H as [H1 H2].
  now rewrite (malformed_gives_no_record _ H1), (IH H2).
Qed.

Lemma getitem_is_dict_with payload key rows :
  Py.getitem payload key = Ok rows -> Py.is_dict_with key payload = true.
Proof.
  destruct payload; try discriminate. simpl.
  destruct (Py.lookup key entries); [reflexivity | discriminate].
Qed.

End Rows.

Lemma no_valid_row_no_rows (w : World) (self : PSXTicker) (sd ed : datetime)
      (payload : pyval) :
  TradingViewClient w = Ok tt ->
  tv_get_historical_data w (symbol self) sd ed = Ok payload ->
  no_valid_row payload ->
  tv_rows w self sd ed = Ok [].
Proof.
  intros Hc Hp Hn. unfold tv_rows. rewrite Hc, Hp.
  destruct Hn as [->|(rows & entries & Hg & Hi & Hm)]; [reflexivity|].
  rewrite (getitem_is_dict_with _ _ _ Hg), Hg, Hi.
  now apply malformed_entries_give_no_rows.
Qed.

(** C9: when TradingView answers without raising, and its payload is not a
    dict with a ['data'] key or holds malformed entries only (so that the
    extracted table is empty), nothing is appended to the accumulator.  The
    composite error then lists fewer entries than sources were tried: none at
    all when the reader is disabled, and none either when both sources
    are. *)
Theorem silent_tradingview_miss (w : World) (self : PSXTicker)
        (start_date end_date : option datetime) (period : string)
        (t0 : list event) (sd ed : datetime) (payload : pyval)
        (errors : list string) :
  resolve_range w start_date end_date period = (t0, Ok (sd, ed)) ->
  TradingViewClient w = Ok tt ->
  tv_get_historical_data w (symbol self) sd ed = Ok payload ->
  no_valid_row payload ->
  tradingview_stage w self sd ed errors
  = ([EvTradingViewClient; EvTradingViewHistorical (symbol self) sd ed],
     Ok (Continue errors))
  /\ get_historical_data w self start_date end_date period true false
     = ((t0 ++ [EvTradingViewClient;
                EvTradingViewHistorical (symbol self) sd ed])%list,
        Raise (request_error error_header))
  /\ (forall e,
         scrape_historical_data w (symbol self) sd ed = Raise e ->
         is_PSXRequestError e = true ->
         outcome (get_historical_data w self start_date end_date period
                                      true true)
         = Raise (request_error (error_msg [reader_failure e])))
  /\ get_historical_data w self start_date end_date period false false
     = (t0, Raise (request_error error_header)).
Proof.
  intros Hr Hc Hp Hn.
  pose proof (no_valid_row_no_rows w self sd ed payload Hc Hp Hn) as Hrows.
  repeat split.
  - pose proof (tradingview_stage_outcome w self sd ed errors) as Ho.
    pose proof (tradingview_stage_trace w self sd ed errors) as Ht.
    rewrite Hrows in Ho. rewrite Hc in Ht. unfold outcome, trace in Ho, Ht.
    destruct (tradingview_stage w self sd ed errors). simpl in *.
    now subst.
  - rewrite (get_historical_data_resolved w self _ _ _ t0 sd ed Hr).
    rewrite try_sources_reader_disabled.
    unfold after_reader, outcome, trace. simpl. now rewrite Hc, Hrows.
  - intros e Hs He.
    rewrite (get_historical_data_resolved w self _ _ _ t0 sd ed Hr).
    rewrite (try_sources_reader_failed w self sd ed true e Hs He).
    unfold after_reader, outcome. simpl. now rewrite Hrows.
  - rewrite (get_historical_data_resolved w self _ _ _ t0 sd ed Hr).
    rewrite try_sources_reader_disabled.
    unfold after_reader, outcome, trace. simpl. now rewrite app_nil_r.
Qed.

Lemma silent_tradingview_miss_witness :
  let refused := request_error "no data" in
  let payload := Sample.payload [PInt 7; PList [PStr "2024-03-29"; PInt 1]] in
  let w := Sample.historical (Raise refused) (Ok payload) in
  no_valid_row payload
  /\ tradingview_stage w Sample.hbl (ymd 2024 3 1) Sample.today []
     = ([EvTradingViewClient;
         EvTradingViewHistorical "HBL" (ymd 2024 3 1) Sample.today],
        Ok (Continue []))
  /\ get_historical_data w Sample.hbl None None "1mo" true false
     = ([EvNow; EvTradingViewClient;
         EvTradingViewHistorical "HBL" (ymd 2024 3 1) Sample.today],
        Raise (request_error error_header))
  /\ (forall e,
         scrape_historical_data w "HBL" (ymd 2024 3 1) Sample.today
         = Raise e ->
         is_PSXRequestError e = true ->
         outcome (get_historical_data w Sample.hbl None None "1mo" true true)
         = Raise (request_error (error_msg [reader_failure e])))
  /\ get_historical_data w Sample.hbl None None "1mo" false false
     = ([EvNow], Raise (request_error error_header)).
Proof.
  intros refused payload w.
  assert (Hn : no_valid_row payload).
  { right. exists (PList [PInt 7; PList [PStr "2024-03-29"; PInt 1]]).
    exists [PInt 7; PList [PStr "2024-03-29"; PInt 1]].
    repeat split; reflexivity. }
  split; [exact Hn|].
  apply (silent_tradingview_miss w Sample.hbl None None "1mo" [EvNow]
                                 (ymd 2024 3 1) Sample.today payload []);
    try reflexivity.
  exact Hn.
Defined.

(** ** The table built from TradingView's rows *)

Section ValidRows.

Variable w : World.
Variable entries : list pyval.

(** No list entry is longer than six, and [pd.to_datetime] accepts the
    date of every list entry of six. *)
Hypothesis at_most_six :
  forall items, In (PList items) entries -> (List.length items <= 6)%nat.
Hypothesis dates_convert :
  forall d o h l c v,
    In (PList [d; o; h; l; c; v]) entries ->
    exists date, pd_to_datetime w d = Ok date.

Lemma tv_records_rows_from rest data :
  incl rest entries ->
  tv_records w rest data = Ok (data ++ rows_of w rest)%list.
Proof.
  revert data. induction rest as [|entry rest IH]; intros data Hin.
  - simpl. now rewrite app_nil_r.
  - assert (Hrest : incl rest entries).
    { intros x Hx. apply Hin. now right. }
    assert (Hentry : In entry entries) by (apply Hin; now left).
    destruct entry as
        [| | | | | |[|a [|b [|c [|d [|e [|f [|g items]]]]]]]| | |];
      try (simpl; now apply IH).
    + destruct (dates_convert _ _ _ _ _ _ Hentry) as [date Hd].
      cbn [tv_records tv_record List.length Nat.leb Py.unpack6].
      rewrite Hd. rewrite (IH _ Hrest).
      unfold rows_of. cbn [flat_map row_of]. rewrite Hd.
      now rewrite <- app_assoc.
    + apply at_most_six in Hentry. simpl in Hentry. lia.
Qed.

Lemma tv_records_rows : tv_records w entries [] = Ok (rows_of w entries).
Proof. apply tv_records_rows_from, incl_refl. Qed.

Lemma rows_of_valid_rows_from rest :
  incl rest entries -> rows_of w rest = valid_rows_of w rest.
Proof.
  induction rest as [|entry rest IH]; intros Hin; [reflexivity|].
  assert (Hrest : incl rest entries).
  { intros x Hx. apply Hin. now right. }
  assert (Hentry : In entry entries) by (apply Hin; now left).
  unfold rows_of, valid_rows_of in *. cbn [flat_map].
  rewrite (IH Hrest). f_equal.
  destruct entry as
      [| | | | | |[|a [|b [|c [|d [|e [|f [|g items]]]]]]]| | |];
    try reflexivity.
  apply at_most_six in Hentry. simpl in Hentry. lia.
Qed.

Lemma six_fields_give_a_row items :
  In (PList items) entries -> List.length items = 6%nat ->
  rows_of w entries <> [].
Proof.
  intros Hin Hlen.
  destruct items as [|a [|b [|c [|d [|e [|f [|g items]]]]]]];
    try discriminate Hlen.
  destruct (dates_convert _ _ _ _ _ _ Hin) as [date Hd].
  assert (Hr : In [date; b; c; d; e; f] (rows_of w entries)).
  { unfold rows_of. apply in_flat_map. eexists. split; [exact Hin|].
    cbn [row_of]. rewrite Hd. now left. }
  intros Hnil. rewrite Hnil in Hr. exact Hr.
Qed.

End ValidRows.

(** C4, as the specification words it, fails: the reader is enabled and
    yields no data, an empty table, while TradingView holds a well-formed
    row; the call returns the reader's empty table, not the table of
    TradingView's row. *)
Lemma tradingview_rows_not_returned_after_empty_reader :
  let w := Sample.historical (Ok Sample.empty_table)
                             (Ok (Sample.payload [Sample.row6])) in
  reader_returned_data w Sample.hbl (ymd 2024 3 1) Sample.today = false
  /\ malformed Sample.row6 = false
  /\ tv_rows w Sample.hbl (ymd 2024 3 1) Sample.today
     = Ok (valid_rows_of w [Sample.row6])
  /\ ~ returns_tradingview_table w Sample.hbl None None "1mo" true
                                 [Sample.row6].
Proof.
  repeat split; try reflexivity.
  intros H. vm_compute in H. discriminate H.
Qed.

(** The unpacking of line 123 takes six values exactly: a list entry of
    seven passes the test of line 122 and ends the attempt. *)
Example seven_fields_row_refused :
  outcome (get_historical_data
             (Sample.historical (Ok Sample.empty_table)
                                (Ok (Sample.payload [Sample.row7])))
             Sample.hbl None None "1mo" true false)
  = Raise (request_error
             (error_msg
                ["TradingView error: too many values to unpack (expected 6)"])).
Proof. reflexivity. Qed.

(** C4, amended: when the reader is disabled or fails with a
    [PSXRequestError], and TradingView returns a dict whose ['data'] goes
    through entries none of which is a list of more than six elements, at
    least one of which is a list of six, the dates of which
    [pd.to_datetime] converts, the call returns the table of the
    six-element list entries alone, read as [(date, open, high, low, close,
    volume)] and indexed by date. *)
Theorem tradingview_table_of_valid_rows (w : World) (self : PSXTicker)
        (start_date end_date : option datetime) (period : string)
        (use_psx_reader : bool) (t0 : list event) (sd ed : datetime)
        (payload rows : pyval) (entries : list pyval) (items : list pyval) :
  resolve_range w start_date end_date period = (t0, Ok (sd, ed)) ->
  reader_gave_up w self sd ed use_psx_reader ->
  TradingViewClient w = Ok tt ->
  tv_get_historical_data w (symbol self) sd ed = Ok payload ->
  Py.getitem payload "data" = Ok rows ->
  Py.iter rows = Ok entries ->
  (forall items, In (PList items) entries -> (List.length items <= 6)%nat) ->
  (forall d o h l c v,
      In (PList [d; o; h; l; c; v]) entries ->
      exists date, pd_to_datetime w d = Ok date) ->
  In (PList items) entries ->
  List.length items = 6%nat ->
  outcome (get_historical_data w self start_date end_date period
                               true use_psx_reader)
  = Ok (tv_frame (rows_of w entries))
  /\ rows_of w entries = valid_rows_of w entries
  /\ Pandas.empty (tv_frame (rows_of w entries)) = false.
Proof.
  intros Hr Hgave Hc Hp Hg Hi Hsix Hdates Hin Hlen.
  pose proof (six_fields_give_a_row w entries Hdates items Hin Hlen) as Hne.
  assert (Hrows : tv_rows w self sd ed = Ok (rows_of w entries)).
  { unfold tv_rows.
    rewrite Hc, Hp, (getitem_is_dict_with _ _ _ Hg), Hg, Hi.
    now apply tv_records_rows. }
  split; [|split].
  - rewrite (get_historical_data_resolved w self _ _ _ t0 sd ed Hr).
    destruct Hgave as [->|(e & Hs & He)].
    + rewrite try_sources_reader_disabled.
      unfold after_reader, outcome. simpl. rewrite Hrows.
      destruct (rows_of w entries); [contradiction | reflexivity].
    + destruct use_psx_reader.
      * rewrite (try_sources_reader_failed w self sd ed true e Hs He).
        unfold after_reader, outcome. simpl. rewrite Hrows.
        destruct (rows_of w entries); [contradiction | reflexivity].
      * rewrite try_sources_reader_disabled.
        unfold after_reader, outcome. simpl. rewrite Hrows.
        destruct (rows_of w entries); [contradiction | reflexivity].
  - apply (rows_of_valid_rows_from w entries Hsix), incl_refl.
  - destruct (rows_of w entries); [contradiction | reflexivity].
Qed.

Lemma tradingview_table_of_valid_rows_witness :
  let entries := [PInt 7; Sample.row6; PList [PStr "2024-03-28"]] in
  let w := Sample.historical (Raise (request_error "no data"))
                             (Ok (Sample.payload entries)) in
  outcome (get_historical_data w Sample.hbl None None "1mo" true true)
  = Ok (tv_frame (rows_of w entries))
  /\ rows_of w entries = valid_rows_of w entries
  /\ Pandas.empty (tv_frame (rows_of w entries)) = false.
Proof.
  intros entries w.
  apply (tradingview_table_of_valid_rows
           w Sample.hbl None None "1mo" true [EvNow] (ymd 2024 3 1)
           Sample.today (Sample.payload entries) (PList entries) entries
           [PStr "2024-03-29"; PInt 101; PInt 105; PInt 99; PInt 104;
            PInt 5000]); try reflexivity.
  - right. exists (request_error "no data"). split; reflexivity.
  - intros items [H|[H|[H|[]]]]; try discriminate H;
      injection H as <-; simpl; lia.
  - intros d o h l c v _. now exists d.
  - right. left. reflexivity.
Defined.

(** ** The composite error *)

Section Message.

Lemma append_nil_r (s : string) : s ++ EmptyString = s.
Proof. induction s as [|c s IH]; simpl; [reflexivity | now rewrite IH]. Qed.

Lemma append_assoc (s t u : string) : (s ++ t) ++ u = s ++ t ++ u.
Proof. induction s as [|c s IH]; simpl; [reflexivity | now rewrite IH]. Qed.

Lemma concat_cons (x : string) (xs : list string) :
  String.concat EmptyString (x :: xs) = x ++ String.concat EmptyString xs.
Proof. destruct xs; simpl; [now rewrite append_nil_r | reflexivity]. Qed.

(** The loop of lines 142-143 writes one line per failure, numbered in
    order. *)
Lemma enumerate_lines (i : nat) (errors : list string) :
  enumerate i errors = String.concat EmptyString (numbered_lines i errors).
Proof.
  revert i. induction errors as [|error rest IH]; intros i; [reflexivity|].
  change (numbered_lines i (error :: rest))
    with ((PyStr.of_nat i ++ ". " ++ error ++ Py.nl)
            :: numbered_lines (S i) rest).
  rewrite concat_cons, <- IH. simpl enumerate.
  now rewrite !append_assoc.
Qed.

Lemma numbered_lines_length (i : nat) (errors : list string) :
  List.length (numbered_lines i errors) = List.length errors.
Proof.
  unfold numbered_lines.
  rewrite length_map, length_combine, length_seq. apply Nat.min_id.
Qed.

End Message.

Section Composite.

Variables (w : World) (self : PSXTicker) (sd ed : datetime).

(** After the first stage the call ends with a table, or with the
    composite error over the failures recorded so far. *)
Lemma after_reader_cases (use_tv : bool) (errors : list string) :
  (tradingview_gave_up w self sd ed use_tv
   /\ outcome (after_reader w self sd ed use_tv errors)
      = Raise (request_error
                 (error_msg
                    (errors ++ tradingview_failures w self sd ed use_tv))))
  \/ (~ tradingview_gave_up w self sd ed use_tv
      /\ exists df,
          outcome (after_reader w self sd ed use_tv errors) = Ok df).
Proof.
  unfold tradingview_gave_up, tradingview_failures, after_reader, outcome.
  cbn [snd]. destruct use_tv.
  - destruct (tv_rows w self sd ed) as [[|r data]|e].
    + left. rewrite app_nil_r. tauto.
    + right. split; [|now eexists].
      intros [H|[H|[e H]]]; discriminate H.
    + left. split; [|reflexivity]. right. right. now exists e.
  - left. rewrite app_nil_r. tauto.
Qed.

Lemma try_sources_cases (use_tv use_rd : bool) :
  let r := try_sources w self sd ed use_tv use_rd in
  (reader_gave_up w self sd ed use_rd
   /\ tradingview_gave_up w self sd ed use_tv
   /\ outcome r
      = Raise (request_error
                 (error_msg (reader_failures w self sd ed use_rd
                               ++ tradingview_failures w self sd ed use_tv))))
  \/ (~ (reader_gave_up w self sd ed use_rd
         /\ tradingview_gave_up w self sd ed use_tv)
      /\ ~ composite_raised r).
Proof.
  intros r. subst r. unfold reader_gave_up, reader_failures.
  destruct use_rd.
  - destruct (outcome (reader_body w self sd ed)) as [df|e] eqn:Ho.
    + right. rewrite (try_sources_reader_returns _ _ _ _ use_tv df Ho).
      split.
      * intros [[H|(e & Hs & _)] _]; [discriminate H|].
        rewrite reader_body_outcome, Hs in Ho. discriminate Ho.
      * intros (e & H & _). discriminate H.
    + destruct (is_PSXRequestError e) eqn:Hc.
      * pose proof (reader_body_request_error _ _ _ _ _ Ho Hc) as Hs.
        rewrite (try_sources_reader_failed _ _ _ _ use_tv e Hs Hc), Hs.
        destruct (after_reader_cases use_tv [reader_failure e])
          as [[Hg Hm]|[Hg [df Hm]]];
          unfold composite_raised; unfold outcome in *; cbn [snd].
        -- left. split; [right; now exists e|]. split; [exact Hg|].
           exact Hm.
        -- right. split; [tauto|].
           rewrite Hm. intros (e' & H & _). discriminate H.
      * right. rewrite (try_sources_reader_aborts _ _ _ _ use_tv e Ho Hc).
        split.
        -- intros [[H|(e' & Hs & He')] _]; [discriminate H|].
           rewrite reader_body_outcome, Hs in Ho. injection Ho as ->.
           congruence.
        -- intros (e' & H & He'). injection H as <-. congruence.
  - rewrite try_sources_reader_disabled.
    destruct (after_reader_cases use_tv []) as [[Hg Hm]|[Hg [df Hm]]].
    + left. split; [now left|]. split; [exact Hg | exact Hm].
    + right. split; [tauto|].
      unfold composite_raised. rewrite Hm.
      intros (e' & H & _). discriminate H.
Qed.

End Composite.

(** C5, as the specification words it, fails: the reader, the only enabled
    source, is attempted and returns no data, for it raises an exception
    that is not a [PSXRequestError]; that exception leaves the call, and no
    composite error is raised. *)
Lemma unclassified_reader_error_not_composite :
  let w := Sample.historical (Raise Sample.timeout) (Ok PNone) in
  let r := get_historical_data w Sample.hbl None None "1mo" false true in
  ~ (sources_exhausted w Sample.hbl (ymd 2024 3 1) Sample.today false true
                       (trace r)
     <-> composite_raised r).
Proof.
  intros w r [H _].
  assert (Hex : sources_exhausted w Sample.hbl (ymd 2024 3 1) Sample.today
                                  false true (trace r)).
  { split; [intros _; split; reflexivity | discriminate]. }
  destruct (H Hex) as (e & He & Hc).
  vm_compute in He. injection He as <-. discriminate Hc.
Qed.

(** C5, amended: a composite [PSXRequestError] is raised if and only if the
    reader is disabled or has failed with a [PSXRequestError], and
    TradingView is disabled or has produced no row (its attempt raised, or
    found nothing).  Its message is the header followed by exactly one line
    per recorded failure, numbered from 1, the reader's before
    TradingView's. *)
Theorem composite_error_iff (w : World) (self : PSXTicker)
        (start_date end_date : option datetime) (period : string)
        (use_tradingview use_psx_reader : bool)
        (t0 : list event) (sd ed : datetime) :
  resolve_range w start_date end_date period = (t0, Ok (sd, ed)) ->
  let r := get_historical_data w self start_date end_date period
                               use_tradingview use_psx_reader in
  let failures :=
    (reader_failures w self sd ed use_psx_reader
       ++ tradingview_failures w self sd ed use_tradingview)%list in
  (composite_raised r
   <-> reader_gave_up w self sd ed use_psx_reader
       /\ tradingview_gave_up w self sd ed use_tradingview)
  /\ (composite_raised r ->
      outcome r
      = Raise (request_error
                 (error_header
                    ++ String.concat EmptyString (numbered_lines 1 failures)))
      /\ List.length (numbered_lines 1 failures) = List.length failures).
Proof.
  intros Hr r failures. subst r failures.
  rewrite (get_historical_data_resolved w self _ _ _ t0 sd ed Hr).
  pose proof (try_sources_cases w self sd ed use_tradingview use_psx_reader)
    as Hcases.
  set (m := try_sources w self sd ed use_tradingview use_psx_reader) in *.
  unfold composite_raised in *.
  change (outcome ((t0 ++ trace m)%list, outcome m)) with (outcome m).
  destruct Hcases as [(Hg1 & Hg2 & Hm)|[Hn Hc]].
  - split.
    + split; [tauto|]. intros _. rewrite Hm. eexists. split; reflexivity.
    + intros _. split; [|apply numbered_lines_length].
      rewrite Hm. unfold error_msg. now rewrite enumerate_lines.
  - split; [tauto|]. intros H. contradiction.
Qed.

Lemma composite_error_iff_witness :
  let refused := request_error "no data" in
  let w := Sample.historical (Raise refused) (Raise Sample.timeout) in
  let r := get_historical_data w Sample.hbl None None "1mo" true true in
  let failures := [reader_failure refused;
                   tradingview_failure Sample.timeout] in
  (composite_raised r
   <-> reader_gave_up w Sample.hbl (ymd 2024 3 1) Sample.today true
       /\ tradingview_gave_up w Sample.hbl (ymd 2024 3 1) Sample.today true)
  /\ (composite_raised r ->
      outcome r
      = Raise (request_error
                 (error_header
                    ++ String.concat EmptyString (numbered_lines 1 failures)))
      /\ List.length (numbered_lines 1 failures) = List.length failures).
Proof.
  intros refused w r failures.
  apply (composite_error_iff w Sample.hbl None None "1mo" true true [EvNow]
                             (ymd 2024 3 1) Sample.today).
  reflexivity.
Defined.

Example both_sources_failed_message :
  outcome (get_historical_data
             (Sample.historical (Raise (request_error "no data"))
                                (Raise Sample.timeout))
             Sample.hbl None None "1mo" true true)
  = Raise (request_error
             ("Failed to fetch historical data using all available methods:"
                ++ Py.nl ++ "1. PSXDataReader error: no data"
                ++ Py.nl ++ "2. TradingView error: timed out" ++ Py.nl)).
Proof. reflexivity. Qed.

(** ** Intraday data *)

(** C7: when the primary intraday source succeeds, its result is returned as
    it is; when it fails, with whatever exception, and the secondary source
    returns a mapping, the result is a table of one row whose price and
    volume are the mapping's (or [None]) and whose index is the clock's
    reading at the time of the call, whatever the mapping holds. *)
Theorem intraday_fallback (w : World) (self : PSXTicker) :
  (forall x,
      reader_get_intraday_data w (symbol self) = Ok x ->
      get_intraday_data w self = ([EvReaderIntraday (symbol self)], Ok x))
  /\ (forall e entries,
         reader_get_intraday_data w (symbol self) = Raise e ->
         fetch_intraday_data w (symbol self) = Ok (PDict entries) ->
         let value key := match Py.lookup key entries with
                          | Some v => v
                          | None => PNone
                          end in
         get_intraday_data w self
         = ([EvReaderIntraday (symbol self); EvFetchIntraday (symbol self);
             EvNow],
            Ok (inr (mkFrame ["price"; "volume"] (Some "timestamp")
                             [PDatetime (now w)]
                             [[value "price"; value "volume"]])))).
Proof.
  split.
  - intros x H. unfold get_intraday_data, call. now rewrite H.
  - intros e entries H1 H2 value. unfold get_intraday_data, call.
    rewrite H1, H2. reflexivity.
Qed.

Lemma intraday_fallback_witness :
  get_intraday_data (Sample.intraday (Ok (inl (PStr "series"))) (Ok PNone))
                    Sample.hbl
  = ([EvReaderIntraday "HBL"], Ok (inl (PStr "series")))
  /\ get_intraday_data (Sample.intraday (Raise Sample.timeout)
                                        (Ok Sample.quote)) Sample.hbl
     = ([EvReaderIntraday "HBL"; EvFetchIntraday "HBL"; EvNow],
        Ok (inr (mkFrame ["price"; "volume"] (Some "timestamp")
                         [PDatetime Sample.today]
                         [[PInt 104; PInt 5000]]))).
Proof.
  split.
  - apply (intraday_fallback
             (Sample.intraday (Ok (inl (PStr "series"))) (Ok PNone))
             Sample.hbl). reflexivity.
  - apply (proj2 (intraday_fallback
                    (Sample.intraday (Raise Sample.timeout) (Ok Sample.quote))
                    Sample.hbl) Sample.timeout
                 [(PStr "price", PInt 104); (PStr "volume", PInt 5000);
                  (PStr "timestamp", PStr "2020-01-01 09:30:00")]);
      reflexivity.
Defined.

(** C8: when both intraday sources fail, the call raises a
    [PSXRequestError] whose message is the fixed prefix followed by the text
    of the secondary source's exception; the primary's does not appear. *)
Theorem intraday_both_fail (w : World) (self : PSXTicker) (e1 e2 : exn) :
  reader_get_intraday_data w (symbol self) = Raise e1 ->
  fetch_intraday_data w (symbol self) = Raise e2 ->
  get_intraday_data w self
  = ([EvReaderIntraday (symbol self); EvFetchIntraday (symbol self)],
     Raise (request_error ("Failed to fetch intraday data: " ++ exn_str e2))).
Proof.
  intros H1 H2. unfold get_intraday_data, call. now rewrite H1, H2.
Qed.

Lemma intraday_both_fail_witness :
  get_intraday_data
    (Sample.intraday (Raise (request_error "reader down"))
                     (Raise Sample.timeout)) Sample.hbl
  = ([EvReaderIntraday "HBL"; EvFetchIntraday "HBL"],
     Raise (request_error "Failed to fetch intraday data: timed out")).
Proof.
  apply (intraday_both_fail
           (Sample.intraday (Raise (request_error "reader down"))
                            (Raise Sample.timeout))
           Sample.hbl (request_error "reader down") Sample.timeout);
    reflexivity.
Defined.

(** * Further properties *)

(** ** Symbols and labels *)

Section Case.

Lemma upper_char_idempotent (c : ascii) :
  PyStr.upper_char (PyStr.upper_char c) = PyStr.upper_char c.
Proof. destruct c as [[] [] [] [] [] [] [] []]; reflexivity. Qed.

Lemma lower_char_idempotent (c : ascii) :
  PyStr.lower_char (PyStr.lower_char c) = PyStr.lower_char c.
Proof. destruct c as [[] [] [] [] [] [] [] []]; reflexivity. Qed.

Lemma upper_lower_char (c : ascii) :
  PyStr.upper_char (PyStr.lower_char c) = PyStr.upper_char c.
Proof. destruct c as [[] [] [] [] [] [] [] []]; reflexivity. Qed.

Lemma map_chars_compose (f g : ascii -> ascii) (s : string) :
  PyStr.map_chars f (PyStr.map_chars g s)
  = PyStr.map_chars (fun c => f (g c)) s.
Proof. induction s as [|c s IH]; simpl; [reflexivity | now rewrite IH]. Qed.

Lemma map_chars_ext (f g : ascii -> ascii) (s : string) :
  (forall c, f c = g c) -> PyStr.map_chars f s = PyStr.map_chars g s.
Proof.
  intros H. induction s as [|c s IH]; simpl; [reflexivity|].
  now rewrite H, IH.
Qed.

Lemma map_chars_length (f : ascii -> ascii) (s : string) :
  String.length (PyStr.map_chars f s) = String.length s.
Proof. induction s as [|c s IH]; simpl; [reflexivity | now rewrite IH]. Qed.

Lemma upper_idempotent (s : string) :
  PyStr.upper (PyStr.upper s) = PyStr.upper s.
Proof.
  unfold PyStr.upper. rewrite map_chars_compose.
  apply map_chars_ext, upper_char_idempotent.
Qed.

Lemma lower_idempotent (s : string) :
  PyStr.lower (PyStr.lower s) = PyStr.lower s.
Proof.
  unfold PyStr.lower. rewrite map_chars_compose.
  apply map_chars_ext, lower_char_idempotent.
Qed.

End Case.

(** X1: a ticker does not depend on the case in which its symbol is written:
    the symbol it stores is upper-case already, as long as the text given,
    and the lower-cased text gives the same ticker. *)
Theorem ticker_symbol_case_insensitive (s : string) :
  PSXTicker_init (symbol (PSXTicker_init s)) = PSXTicker_init s
  /\ PSXTicker_init (PyStr.lower s) = PSXTicker_init s
  /\ String.length (symbol (PSXTicker_init s)) = String.length s.
Proof.
  unfold PSXTicker_init. simpl. repeat split.
  - now rewrite upper_idempotent.
  - f_equal. unfold PyStr.upper, PyStr.lower. rewrite map_chars_compose.
    apply map_chars_ext, upper_lower_char.
  - apply map_chars_length.
Qed.

(** X2: lower-casing the labels of a table twice is lower-casing them once;
    it keeps the number of columns, the index and the cells. *)
Theorem lower_columns_idempotent (df : DataFrame) :
  lower_columns (lower_columns df) = lower_columns df
  /\ List.length (columns (lower_columns df)) = List.length (columns df)
  /\ index (lower_columns df) = index df
  /\ cells (lower_columns df) = cells df.
Proof.
  unfold lower_columns, Pandas.set_columns. simpl. repeat split.
  - f_equal. rewrite map_map. apply map_ext. intros c. apply lower_idempotent.
  - apply length_map.
Qed.

(** ** Periods in months *)

Section Months.

Lemma digit_is_not_space (c : ascii) :
  PyStr.is_digit c = true -> PyStr.is_space c = false.
Proof.
  unfold PyStr.is_digit, PyStr.is_space, PyStr.in_range. intros H.
  apply andb_true_iff in H as [H1 H2].
  apply Nat.leb_le in H1. apply Nat.leb_le in H2.
  apply orb_false_iff. split; apply andb_false_iff.
  - right. apply Nat.leb_gt. lia.
  - right. apply Nat.leb_gt. lia.
Qed.

Lemma lstrip_digits (l : list ascii) :
  forallb PyStr.is_digit l = true -> PyStr.lstrip l = l.
Proof.
  destruct l as [|c l]; [reflexivity|]. simpl. intros H.
  apply andb_true_iff in H as [H _].
  now rewrite (digit_is_not_space _ H).
Qed.

Lemma strip_digits (l : list ascii) :
  forallb PyStr.is_digit l = true -> PyStr.strip l = l.
Proof.
  intros H. unfold PyStr.strip. rewrite (lstrip_digits l H).
  rewrite lstrip_digits; [apply rev_involutive|].
  apply forallb_forall. intros c Hc. apply in_rev in Hc.
  revert c Hc. now apply forallb_forall.
Qed.

(** Digits after digits: the value read so far grows by one place each. *)
Lemma digits_of_digits (l : list ascii) :
  forallb PyStr.is_digit l = true ->
  forall prev acc n,
    l <> [] \/ prev = true ->
    PyInt.digits prev acc n l
    = Some (fold_left (fun a c => a * 10 + PyStr.digit_value c) l acc,
            (n + List.length l)%nat).
Proof.
  induction l as [|c l IH]; intros H prev acc n Hp.
  - destruct Hp as [Hp| ->]; [contradiction|]. simpl. now rewrite Nat.add_0_r.
  - simpl in H. apply andb_true_iff in H as [Hc Hl].
    simpl. rewrite Hc. rewrite (IH Hl); [|now right].
    now rewrite Nat.add_succ_r.
Qed.

Lemma chars_length (s : string) :
  List.length (PyStr.chars s) = String.length s.
Proof.
  induction s as [|c s IH]; [reflexivity|]. unfold PyStr.chars in *. simpl.
  now rewrite IH.
Qed.

Lemma chars_nil (s : string) : PyStr.chars s = [] -> s = EmptyString.
Proof. destruct s; [reflexivity | discriminate]. Qed.

(** [int] on a text of digits. *)
Lemma int_of_digits (ds : string) :
  all_digits ds = true ->
  ds <> EmptyString ->
  (String.length ds <= PyInt.max_str_digits)%nat ->
  PyInt.int ds = Ok (decimal_value ds).
Proof.
  unfold all_digits, decimal_value. intros Hd Hne Hlen.
  unfold PyInt.int. rewrite (strip_digits _ Hd).
  rewrite <- chars_length in Hlen.
  destruct (PyStr.chars ds) as [|c r] eqn:E.
  - exfalso. now apply Hne, chars_nil.
  - match goal with
    | |- context [let '(_, _) := ?p in _] =>
        assert (Hsign : p = (false, c :: r))
    end.
    { simpl in Hd. apply andb_true_iff in Hd as [Hc _]. clear -Hc.
      destruct c as [[] [] [] [] [] [] [] []];
        try discriminate Hc; reflexivity. }
    rewrite Hsign.
    rewrite (digits_of_digits (c :: r) Hd false 0 0%nat);
      [|left; discriminate].
    destruct (Nat.ltb_spec PyInt.max_str_digits (0 + List.length (c :: r)));
      [lia | reflexivity].
Qed.

Lemma drop_last2_months (ds : string) : PyStr.drop_last2 (ds ++ "mo") = ds.
Proof.
  unfold PyStr.drop_last2. rewrite chars_app, length_app.
  change (List.length (PyStr.chars "mo")) with 2%nat.
  replace (List.length (PyStr.chars ds) + 2 - 2)%nat
    with (List.length (PyStr.chars ds) + 0)%nat by lia.
  rewrite firstn_app_2. simpl firstn. rewrite app_nil_r.
  apply string_of_list_ascii_of_string.
Qed.

Lemma last2_months (ds : string) : PyStr.last2 (ds ++ "mo") = "mo".
Proof.
  unfold PyStr.last2. rewrite chars_app, length_app.
  change (List.length (PyStr.chars "mo")) with 2%nat.
  replace (List.length (PyStr.chars ds) + 2 - 2)%nat
    with (List.length (PyStr.chars ds)) by lia.
  rewrite skipn_app, skipn_all, Nat.sub_diag. reflexivity.
Qed.

Lemma decimal_value_nonneg_from (l : list ascii) (acc : Z) :
  0 <= acc ->
  0 <= fold_left (fun a c => a * 10 + PyStr.digit_value c) l acc.
Proof.
  revert acc. induction l as [|c l IH]; intros acc H; simpl; [exact H|].
  apply IH. unfold PyStr.digit_value. lia.
Qed.

Lemma decimal_value_nonneg (ds : string) : 0 <= decimal_value ds.
Proof. apply decimal_value_nonneg_from. lia. Qed.

Lemma days_before_cases (end_date : datetime) (n : Z) :
  (days_in_range end_date n ->
   days_before end_date n
   = Ok (mkDatetime (ordinal end_date - n) (micros end_date)))
  /\ (~ days_in_range end_date n ->
      exists msg,
        days_before end_date n = Raise (builtin_exn OverflowError msg)).
Proof.
  unfold days_in_range, days_before, timedelta_days, sub_days.
  destruct (Z.leb_spec (Z.abs n) max_delta_days) as [H1|H1].
  - destruct (Z.leb_spec min_ordinal (ordinal end_date - n)) as [H2|H2];
      [destruct (Z.leb_spec (ordinal end_date - n) max_ordinal) as [H3|H3]|];
      simpl; split; intros H; try reflexivity; try lia;
      try (eexists; reflexivity); exfalso; apply H; lia.
  - split; intros H; [lia | eexists; reflexivity].
Qed.

Lemma days_before_raises (end_date : datetime) (n : Z) (e : exn) :
  days_before end_date n = Raise e -> exn_cls e = Builtin OverflowError.
Proof.
  unfold days_before, timedelta_days, sub_days.
  destruct (Z.abs n <=? max_delta_days)%Z.
  - destruct ((min_ordinal <=? ordinal end_date - n)
              && (ordinal end_date - n <=? max_ordinal))%Z%bool;
      [discriminate|]. intros H. now injection H as <-.
  - intros H. now injection H as <-.
Qed.

End Months.

(** X3: for a period written as decimal digits followed by [mo], the start
    date is the end date moved back by 30 days per month, at the same time
    of day, whenever that many days fit a [timedelta] and the date stays
    within years 1 to 9999; otherwise the call fails with an
    [OverflowError]. *)
Theorem months_period_start (ds : string) (end_date : datetime) :
  all_digits ds = true ->
  ds <> EmptyString ->
  (String.length ds <= PyInt.max_str_digits)%nat ->
  let n := decimal_value ds * 30 in
  (days_in_range end_date n ->
   period_start (ds ++ "mo") end_date
   = Ok (mkDatetime (ordinal end_date - n) (micros end_date)))
  /\ (~ days_in_range end_date n ->
      exists msg,
        period_start (ds ++ "mo") end_date
        = Raise (builtin_exn OverflowError msg)).
Proof.
  intros Hd Hne Hlen n.
  assert (Hp : period_start (ds ++ "mo") end_date = days_before end_date n).
  { unfold period_start.
    rewrite drop_last2_months, (int_of_digits ds Hd Hne Hlen), last2_months.
    reflexivity. }
  rewrite Hp. apply days_before_cases.
Qed.

Lemma months_period_start_witness :
  period_start ("6" ++ "mo") (ymd 2024 3 31)
  = Ok (mkDatetime (ordinal (ymd 2024 3 31) - decimal_value "6" * 30)
                   (micros (ymd 2024 3 31)))
  /\ exists msg,
      period_start ("40000000" ++ "mo") (ymd 2024 3 31)
      = Raise (builtin_exn OverflowError msg).
Proof.
  assert (Hlen : forall ds, (String.length ds <= 8)%nat ->
                            (String.length ds <= PyInt.max_str_digits)%nat).
  { intros ds H. unfold PyInt.max_str_digits. lia. }
  split.
  - apply (months_period_start "6" (ymd 2024 3 31));
      [reflexivity | discriminate | apply Hlen; simpl; lia |].
    unfold days_in_range. vm_compute. repeat split; discriminate.
  - apply (months_period_start "40000000" (ymd 2024 3 31));
      [reflexivity | discriminate | apply Hlen; simpl; lia |].
    unfold days_in_range. vm_compute. intros [H _]. now apply H.
Defined.

(** X4: a period of fewer than three characters leaves nothing for [int] to
    read: the call fails with a [ValueError] before a source is contacted,
    even when the text is the unit [mo] itself. *)
Theorem short_period_rejected (w : World) (self : PSXTicker)
        (end_date : option datetime) (period : string)
        (use_tradingview use_psx_reader : bool) :
  (String.length period <= 2)%nat ->
  get_historical_data w self None end_date period
                      use_tradingview use_psx_reader
  = (match end_date with None => [EvNow] | Some _ => [] end,
     Raise (PyInt.invalid_literal EmptyString)).
Proof.
  intros Hlen.
  assert (Hd : PyStr.drop_last2 period = EmptyString).
  { unfold PyStr.drop_last2. rewrite chars_length.
    replace (String.length period - 2)%nat with 0%nat by lia. reflexivity. }
  unfold get_historical_data, resolve_range, period_start.
  destruct end_date as [d|]; simpl; rewrite Hd; reflexivity.
Qed.

Lemma short_period_rejected_witness :
  get_historical_data (Sample.historical (Ok Sample.ohlcv_table) (Ok PNone))
                      Sample.hbl None None "mo" true true
  = ([EvNow], Raise (PyInt.invalid_literal EmptyString)).
Proof.
  apply (short_period_rejected
           (Sample.historical (Ok Sample.ohlcv_table) (Ok PNone))
           Sample.hbl None "mo" true true).
  simpl. lia.
Defined.

(** X5: whatever the period and the dates, a call that fails while it
    works out its date range fails with a [ValueError] or an
    [OverflowError], never with a [PSXRequestError], and has contacted no
    source. *)
Theorem range_failure_is_local (w : World) (self : PSXTicker)
        (start_date end_date : option datetime) (period : string)
        (use_tradingview use_psx_reader : bool) (e : exn) :
  outcome (resolve_range w start_date end_date period) = Raise e ->
  let r := get_historical_data w self start_date end_date period
                               use_tradingview use_psx_reader in
  outcome r = Raise e
  /\ (exn_cls e = Builtin ValueError \/ exn_cls e = Builtin OverflowError)
  /\ existsb source_event (trace r) = false.
Proof.
  intros He r.
  assert (Hcls : forall d, period_start period d = Raise e ->
                           exn_cls e = Builtin ValueError
                           \/ exn_cls e = Builtin OverflowError).
  { intros d. unfold period_start.
    destruct (PyInt.int (PyStr.drop_last2 period)) as [v|e0] eqn:Hi.
    - pose proof (fun n => days_before_raises d n e) as Hdays.
      destruct (String.eqb (PyStr.last2 period) "mo"); [eauto|].
      destruct (String.eqb (PyStr.last2 period) "y"); [eauto|].
      intros H. injection H as <-. now left.
    - intros H. injection H as ->.
      destruct (int_raises_ValueError _ _ Hi) as [msg ->]. now left. }
  subst r. unfold get_historical_data.
  pose proof (resolve_range_quiet w start_date end_date period) as Hq.
  unfold outcome, trace in *.
  destruct (resolve_range w start_date end_date period) as [t [range|e0]] eqn:E;
    simpl in He; [discriminate|]. injection He as ->.
  simpl in *. split; [reflexivity|]. split; [|exact Hq].
  unfold resolve_range in E.
  destruct end_date as [d|], start_date as [s|]; simpl in E;
    try discriminate E.
  - destruct (period_start period d) eqn:Hp; [discriminate E|].
    injection E as _ ->. eauto.
  - destruct (period_start period (now w)) eqn:Hp; [discriminate E|].
    injection E as _ ->. eauto.
Qed.

Lemma range_failure_is_local_witness :
  let w := Sample.historical (Ok Sample.ohlcv_table) (Ok PNone) in
  let r := get_historical_data w Sample.hbl None None "3wk" true true in
  outcome r = Raise invalid_period
  /\ (exn_cls invalid_period = Builtin ValueError
      \/ exn_cls invalid_period = Builtin OverflowError)
  /\ existsb source_event (trace r) = false.
Proof.
  intros w.
  apply (range_failure_is_local w Sample.hbl None None "3wk" true true
                                invalid_period).
  reflexivity.
Defined.

(** X6: when a start date is given the period is not looked at: the call
    does the same, event for event, whatever the period text, malformed or
    not. *)
Theorem explicit_start_ignores_period (w : World) (self : PSXTicker)
        (start_date : datetime) (end_date : option datetime)
        (period period' : string) (use_tradingview use_psx_reader : bool) :
  get_historical_data w self (Some start_date) end_date period
                      use_tradingview use_psx_reader
  = get_historical_data w self (Some start_date) end_date period'
                        use_tradingview use_psx_reader.
Proof.
  unfold get_historical_data, resolve_range.
  destruct end_date; reflexivity.
Qed.

(** ** The events of a call *)

Section Events.

Variables (w : World) (self : PSXTicker) (sd ed : datetime).

(** What TradingView's stage adds to the trace, when it runs. *)
Lemma try_sources_trace_form (use_tv use_rd : bool) :
  exists tvs,
    trace (try_sources w self sd ed use_tv use_rd)
    = ((if use_rd then trace (reader_body w self sd ed) else []) ++ tvs)%list
    /\ (tvs = []
        \/ (use_tv = true
            /\ (tvs = [EvTradingViewClient]
                \/ tvs = [EvTradingViewClient;
                          EvTradingViewHistorical (symbol self) sd ed]))).
Proof.
  assert (Hafter : forall errors,
             fst (after_reader w self sd ed use_tv errors) = []
             \/ (use_tv = true
                 /\ (fst (after_reader w self sd ed use_tv errors)
                     = [EvTradingViewClient]
                     \/ fst (after_reader w self sd ed use_tv errors)
                        = [EvTradingViewClient;
                           EvTradingViewHistorical (symbol self) sd ed]))).
  { intros errors. unfold after_reader. cbn [fst].
    destruct use_tv; [|now left]. right. split; [reflexivity|].
    destruct (TradingViewClient w); [now right | now left]. }
  destruct use_rd.
  - destruct (outcome (reader_body w self sd ed)) as [df|e] eqn:Ho.
    + exists []. rewrite (try_sources_reader_returns _ _ _ _ use_tv df Ho).
      unfold trace at 1. cbn [fst]. rewrite app_nil_r. now split; [|left].
    + destruct (is_PSXRequestError e) eqn:Hc.
      * pose proof (reader_body_request_error _ _ _ _ _ Ho Hc) as Hs.
        exists (fst (after_reader w self sd ed use_tv [reader_failure e])).
        rewrite (try_sources_reader_failed _ _ _ _ use_tv e Hs Hc).
        rewrite reader_body_trace, Hs. unfold trace. cbn [fst].
        split; [reflexivity | apply Hafter].
      * exists []. rewrite (try_sources_reader_aborts _ _ _ _ use_tv e Ho Hc).
        unfold trace at 1. cbn [fst]. rewrite app_nil_r. now split; [|left].
  - exists (fst (after_reader w self sd ed use_tv [])).
    rewrite try_sources_reader_disabled. split; [reflexivity | apply Hafter].
Qed.

Lemma count_events_app (p : event -> bool) (a b : list event) :
  count_events p (a ++ b)
  = (count_events p a + count_events p b)%nat.
Proof. unfold count_events. now rewrite filter_app, length_app. Qed.

Lemma count_events_prints (p : event -> bool) (t : list event) :
  (forall x, p (EvPrint x) = false) ->
  forallb print_event t = true -> count_events p t = 0%nat.
Proof.
  intros Hp. unfold count_events.
  induction t as [|ev t IH]; simpl; [reflexivity|].
  intros H. apply andb_true_iff in H as [H1 H2].
  destruct ev; try discriminate H1. rewrite Hp. now apply IH.
Qed.

Lemma count_zero_existsb (p : event -> bool) (t : list event) :
  count_events p t = 0%nat <-> existsb p t = false.
Proof.
  unfold count_events. induction t as [|ev t IH]; simpl; [tauto|].
  destruct (p ev); simpl; [split; discriminate | exact IH].
Qed.

(** The reader's part of the trace: the request, then printing only. *)
Lemma reader_body_trace_form :
  exists prints,
    trace (reader_body w self sd ed)
    = EvScrapeHistorical (symbol self) sd ed :: prints
    /\ forallb print_event prints = true.
Proof.
  rewrite reader_body_trace. eexists. split; [reflexivity|].
  destruct (scrape_historical_data w (symbol self) sd ed) as [df0|e];
    [|reflexivity].
  destruct (Pandas.empty df0); [reflexivity|].
  apply print_statistics_only_prints.
Qed.


End Events.

Lemma resolved_trace_cases (w : World) (start_date end_date : option datetime)
      (period : string) (t0 : list event) (range : datetime * datetime) :
  resolve_range w start_date end_date period = (t0, Ok range) ->
  t0 = match end_date with None => [EvNow] | Some _ => [] end.
Proof.
  unfold resolve_range.
  destruct end_date as [d|], start_date as [s|]; simpl.
  - intros H. now injection H as <- _.
  - destruct (period_start period d); simpl; intros H;
      [now injection H as <- _ | discriminate H].
  - intros H. now injection H as <- _.
  - destruct (period_start period (now w)); simpl; intros H;
      [now injection H as <- _ | discriminate H].
Qed.

(** X7: the two switches are obeyed and nothing is asked twice.  In a call
    whose date range resolves, a disabled source is never contacted; an
    enabled reader is asked exactly once; TradingView is asked at most
    once; and every request carries the ticker's symbol and the resolved
    range. *)
Theorem sources_contacted_as_enabled (w : World) (self : PSXTicker)
        (start_date end_date : option datetime) (period : string)
        (use_tradingview use_psx_reader : bool)
        (t0 : list event) (sd ed : datetime) :
  resolve_range w start_date end_date period = (t0, Ok (sd, ed)) ->
  let t := trace (get_historical_data w self start_date end_date period
                                      use_tradingview use_psx_reader) in
  count_events scrape_event t = (if use_psx_reader then 1 else 0)%nat
  /\ (use_tradingview = false -> existsb tradingview_event t = false)
  /\ (count_events tradingview_request_event t <= 1)%nat
  /\ Forall (addressed_to self sd ed) t.
Proof.
  intros Hr t. subst t.
  rewrite (get_historical_data_resolved w self _ _ _ t0 sd ed Hr).
  set (m := try_sources w self sd ed use_tradingview use_psx_reader).
  change (trace ((t0 ++ trace m)%list, outcome m)) with (t0 ++ trace m)%list.
  subst m.
  rewrite (resolved_trace_cases _ _ _ _ _ _ Hr).
  destruct (try_sources_trace_form w self sd ed use_tradingview
                                   use_psx_reader) as (tvs & Ht & Htvs).
  rewrite Ht.
  destruct (reader_body_trace_form w self sd ed) as (prints & Hrb & Hp).
  rewrite Hrb.
  set (first := match end_date with None => [EvNow] | Some _ => [] end).
  set (middle := if use_psx_reader
                 then EvScrapeHistorical (symbol self) sd ed :: prints
                 else []).
  assert (Hps : count_events scrape_event prints = 0%nat)
    by (now apply count_events_prints).
  assert (Hpr : count_events tradingview_request_event prints = 0%nat)
    by (now apply count_events_prints).
  assert (Hpt : existsb tradingview_event prints = false)
    by (now apply prints_are_not_tradingview).
  assert (Hpa : Forall (addressed_to self sd ed) prints).
  { clear -Hp. induction prints as [|ev l IH]; [constructor|].
    simpl in Hp. apply andb_true_iff in Hp as [H1 H2].
    constructor; [|now apply IH]. destruct ev; try discriminate H1.
    exact I. }
  assert (F1 : count_events scrape_event first = 0%nat
               /\ count_events tradingview_request_event first = 0%nat
               /\ existsb tradingview_event first = false
               /\ Forall (addressed_to self sd ed) first).
  { subst first. destruct end_date; repeat split; try reflexivity;
      repeat constructor. }
  assert (F2 : count_events scrape_event middle
               = (if use_psx_reader then 1 else 0)%nat
               /\ count_events tradingview_request_event middle = 0%nat
               /\ existsb tradingview_event middle = false
               /\ Forall (addressed_to self sd ed) middle).
  { subst middle. destruct use_psx_reader;
      [|repeat split; try reflexivity; constructor].
    repeat split.
    - unfold count_events in *. simpl. now rewrite Hps.
    - unfold count_events in *. simpl. exact Hpr.
    - simpl. exact Hpt.
    - constructor; [simpl; tauto | exact Hpa]. }
  assert (F3 : count_events scrape_event tvs = 0%nat
               /\ (count_events tradingview_request_event tvs <= 1)%nat
               /\ (use_tradingview = false ->
                   existsb tradingview_event tvs = false)
               /\ Forall (addressed_to self sd ed) tvs).
  { destruct Htvs as [->|[-> [->| ->]]]; repeat split;
      try reflexivity; try discriminate;
      try (unfold count_events; simpl; lia);
      repeat constructor. }
  destruct F1 as (A1 & A2 & A3 & A4), F2 as (B1 & B2 & B3 & B4),
           F3 as (C1 & C2 & C3 & C4).
  rewrite !count_events_app, !existsb_app, A1, A2, A3, B1, B2, B3, C1.
  repeat split.
  - lia.
  - intros H. now rewrite (C3 H).
  - lia.
  - repeat (apply Forall_app; split); assumption.
Qed.

Lemma sources_contacted_as_enabled_witness :
  let w := Sample.historical (Raise (request_error "no data"))
                             (Ok (Sample.payload [Sample.row6])) in
  let t := trace (get_historical_data w Sample.hbl None None "1mo"
                                      true true) in
  count_events scrape_event t = 1%nat
  /\ (true = false -> existsb tradingview_event t = false)
  /\ (count_events tradingview_request_event t <= 1)%nat
  /\ Forall (addressed_to Sample.hbl (ymd 2024 3 1) Sample.today) t.
Proof.
  intros w.
  apply (sources_contacted_as_enabled w Sample.hbl None None "1mo" true true
                                      [EvNow] (ymd 2024 3 1) Sample.today).
  reflexivity.
Defined.



(** ** TradingView's rows *)

Section Records.

Variable w : World.

Lemma tv_record_six (entry : pyval) (r : list pyval) :
  tv_record w entry = Ok (Some r) -> List.length r = 6%nat.
Proof.
  destruct entry as
      [| | | | | |[|a [|b [|c [|d [|e [|f [|g items]]]]]]]| | |];
    try discriminate.
  cbn [tv_record List.length Nat.leb Py.unpack6].
  destruct (pd_to_datetime w a); [|discriminate].
  intros H. now injection H as <-.
Qed.

(** Every record the loop collects has six fields. *)
Lemma tv_records_six (entries : list pyval) :
  forall data data',
    Forall (fun r => List.length r = 6%nat) data ->
    tv_records w entries data = Ok data' ->
    Forall (fun r => List.length r = 6%nat) data'.
Proof.
  induction entries as [|entry rest IH]; intros data data' Hd; simpl.
  - intros H. now injection H as <-.
  - destruct (tv_record w entry) as [[r|]|e] eqn:E; [| |discriminate].
    + apply IH. apply Forall_app. split; [exact Hd|].
      constructor; [exact (tv_record_six _ _ E) | constructor].
    + now apply IH.
Qed.

(** One entry that raises ends the loop, whatever the other entries. *)
Lemma tv_records_raises (entries : list pyval) (entry : pyval) (e0 : exn) :
  In entry entries ->
  tv_record w entry = Raise e0 ->
  forall data, exists e, tv_records w entries data = Raise e.
Proof.
  intros Hin Hraise.
  induction entries as [|x rest IH]; [contradiction|]. intros data. simpl.
  destruct (tv_record w x) as [[r|]|e] eqn:E.
  - destruct Hin as [->|Hin]; [congruence | now apply IH].
  - destruct Hin as [->|Hin]; [congruence | now apply IH].
  - now exists e.
Qed.

Lemma overlong_row_raises (items : list pyval) :
  (6 < List.length items)%nat ->
  tv_record w (PList items)
  = Raise (builtin_exn ValueError "too many values to unpack (expected 6)").
Proof.
  destruct items as [|a [|b [|c [|d [|e [|f [|g items]]]]]]];
    simpl List.length; intros H; try lia. reflexivity.
Qed.

Lemma tv_frame_shaped (r : list pyval) (data : list (list pyval)) :
  Forall (fun r => List.length r = 6%nat) (r :: data) ->
  tradingview_shaped (tv_frame (r :: data)).
Proof.
  intros H. unfold tradingview_shaped, tv_frame.
  cbn [columns index_name index cells]. repeat split.
  - now rewrite !length_map.
  - simpl. lia.
  - apply Forall_map. revert H. apply Forall_impl.
    intros row Hrow. destruct row; [discriminate Hrow|].
    simpl in *. lia.
Qed.

End Records.

Lemma tv_rows_six (w : World) (self : PSXTicker) (sd ed : datetime)
      (data : list (list pyval)) :
  tv_rows w self sd ed = Ok data ->
  Forall (fun r => List.length r = 6%nat) data.
Proof.
  unfold tv_rows.
  destruct (TradingViewClient w); [|discriminate].
  destruct (tv_get_historical_data w (symbol self) sd ed) as [tv_data|];
    [|discriminate].
  destruct (Py.is_dict_with "data" tv_data).
  - destruct (Py.getitem tv_data "data") as [rows|]; [|discriminate].
    destruct (Py.iter rows) as [entries|]; [|discriminate].
    apply tv_records_six. constructor.
  - intros H. injection H as <-. constructor.
Qed.

(** X9: a table that comes from TradingView is never empty and always has
    the same shape: whenever a call that contacted TradingView returns a
    table, its columns are open, high, low, close and volume, its index is
    named date, it has as many index labels as rows, at least one, and every
    row has five cells. *)
Theorem tradingview_table_shape (w : World) (self : PSXTicker)
        (start_date end_date : option datetime) (period : string)
        (use_tradingview use_psx_reader : bool)
        (t0 : list event) (sd ed : datetime) (df : DataFrame) :
  resolve_range w start_date end_date period = (t0, Ok (sd, ed)) ->
  let r := get_historical_data w self start_date end_date period
                               use_tradingview use_psx_reader in
  existsb tradingview_event (trace r) = true ->
  outcome r = Ok df ->
  tradingview_shaped df.
Proof.
  intros Hr r. subst r.
  assert (Hafter : forall errors,
             snd (after_reader w self sd ed use_tradingview errors) = Ok df ->
             tradingview_shaped df).
  { intros errors. unfold after_reader. cbn [snd].
    destruct use_tradingview; [|discriminate].
    destruct (tv_rows w self sd ed) as [[|row data]|e] eqn:E;
      try discriminate.
    intros H. injection H as <-.
    apply tv_frame_shaped. exact (tv_rows_six _ _ _ _ _ E). }
  destruct use_psx_reader.
  - destruct (outcome (reader_body w self sd ed)) as [df'|e] eqn:Ho.
    + intros Ht.
      rewrite (reader_ends_call_quietly w self _ _ _ t0 sd ed Hr
                 use_tradingview (Ok df') Ho) in Ht by discriminate.
      discriminate Ht.
    + destruct (is_PSXRequestError e) eqn:Hc.
      * pose proof (reader_body_request_error _ _ _ _ _ Ho Hc) as Hs.
        intros _.
        rewrite (get_historical_data_resolved w self _ _ _ t0 sd ed Hr).
        rewrite (try_sources_reader_failed _ _ _ _ use_tradingview e Hs Hc).
        unfold outcome. cbn [snd]. apply Hafter.
      * intros Ht.
        rewrite (reader_ends_call_quietly w self _ _ _ t0 sd ed Hr
                   use_tradingview (Raise e) Ho) in Ht.
        -- discriminate Ht.
        -- intros e' H. now injection H as <-.
  - intros _.
    rewrite (get_historical_data_resolved w self _ _ _ t0 sd ed Hr).
    rewrite try_sources_reader_disabled.
    unfold outcome. cbn [snd].
    destruct (after_reader w self sd ed use_tradingview []) eqn:E.
    cbn [snd]. intros H. apply (Hafter []). now rewrite E.
Qed.

Lemma tradingview_table_shape_witness :
  let w := Sample.historical (Raise (request_error "no data"))
                             (Ok (Sample.payload [PInt 7; Sample.row6])) in
  tradingview_shaped
    (tv_frame [[PStr "2024-03-29"; PInt 101; PInt 105; PInt 99; PInt 104;
                PInt 5000]]).
Proof.
  intros w.
  apply (tradingview_table_shape w Sample.hbl None None "1mo" true true
                                 [EvNow] (ymd 2024 3 1) Sample.today);
    reflexivity.
Defined.

Section Discarded.

Variables (w : World) (self : PSXTicker).
Variables (start_date end_date : option datetime) (period : string).
Variables (t0 : list event) (sd ed : datetime).
Variables (payload rows : pyval) (entries : list pyval).

Hypothesis resolved :
  resolve_range w start_date end_date period = (t0, Ok (sd, ed)).
Hypothesis client : TradingViewClient w = Ok tt.
Hypothesis answered :
  tv_get_historical_data w (symbol self) sd ed = Ok payload.
Hypothesis data_rows : Py.getitem payload "data" = Ok rows.
Hypothesis iterable : Py.iter rows = Ok entries.

(** An entry on which the loop raises costs the whole attempt: with the
    reader disabled the call fails, its message one TradingView line. *)
Lemma failing_entry_discards_attempt (entry : pyval) (e0 : exn) :
  In entry entries ->
  tv_record w entry = Raise e0 ->
  exists e,
    tv_rows w self sd ed = Raise e
    /\ get_historical_data w self start_date end_date period true false
       = ((t0 ++ [EvTradingViewClient;
                  EvTradingViewHistorical (symbol self) sd ed])%list,
          Raise (request_error (error_msg [tradingview_failure e]))).
Proof.
  intros Hin Hraise.
  destruct (tv_records_raises w entries entry e0 Hin Hraise []) as [e He].
  assert (Hrows : tv_rows w self sd ed = Raise e).
  { unfold tv_rows.
    now rewrite client, answered, (getitem_is_dict_with _ _ _ data_rows),
      data_rows, iterable. }
  exists e. split; [exact Hrows|].
  rewrite (get_historical_data_resolved w self _ _ _ t0 sd ed resolved).
  rewrite try_sources_reader_disabled.
  unfold after_reader, trace, outcome. cbn [fst snd].
  now rewrite client, Hrows.
Qed.

End Discarded.

(** X10: one list entry of more than six elements costs the whole
    TradingView attempt, however many well-formed rows come with it: the
    attempt ends with an exception, no table is built, and with the reader
    disabled the call fails with a composite error of one TradingView
    line. *)
Theorem overlong_row_discards_attempt (w : World) (self : PSXTicker)
        (start_date end_date : option datetime) (period : string)
        (t0 : list event) (sd ed : datetime)
        (payload rows : pyval) (entries items : list pyval) :
  resolve_range w start_date end_date period = (t0, Ok (sd, ed)) ->
  TradingViewClient w = Ok tt ->
  tv_get_historical_data w (symbol self) sd ed = Ok payload ->
  Py.getitem payload "data" = Ok rows ->
  Py.iter rows = Ok entries ->
  In (PList items) entries ->
  (6 < List.length items)%nat ->
  exists e,
    tv_rows w self sd ed = Raise e
    /\ get_historical_data w self start_date end_date period true false
       = ((t0 ++ [EvTradingViewClient;
                  EvTradingViewHistorical (symbol self) sd ed])%list,
          Raise (request_error (error_msg [tradingview_failure e]))).
Proof.
  intros Hr Hc Hp Hg Hi Hin Hlen.
  exact (failing_entry_discards_attempt
           w self _ _ _ t0 sd ed payload rows entries Hr Hc Hp Hg Hi
           (PList items) _ Hin (overlong_row_raises w items Hlen)).
Qed.

Lemma overlong_row_discards_attempt_witness :
  let entries := [Sample.row6; Sample.row7; Sample.row6] in
  let w := Sample.historical (Ok Sample.ohlcv_table)
                             (Ok (Sample.payload entries)) in
  exists e,
    tv_rows w Sample.hbl (ymd 2024 3 1) Sample.today = Raise e
    /\ get_historical_data w Sample.hbl None None "1mo" true false
       = ([EvNow; EvTradingViewClient;
           EvTradingViewHistorical "HBL" (ymd 2024 3 1) Sample.today],
          Raise (request_error (error_msg [tradingview_failure e]))).
Proof.
  intros entries w.
  apply (overlong_row_discards_attempt
           w Sample.hbl None None "1mo" [EvNow] (ymd 2024 3 1) Sample.today
           (Sample.payload entries) (PList entries) entries
           [PStr "2024-03-29"; PInt 101; PInt 105; PInt 99; PInt 104;
            PInt 5000; PInt 0]); try reflexivity.
  - right. left. reflexivity.
  - simpl. lia.
Defined.

(** X11: one well-formed row whose date [pd.to_datetime] refuses costs the
    whole TradingView attempt as well: no table is built from the other
    rows, and with the reader disabled the call fails with a composite
    error of one TradingView line. *)
Theorem unreadable_date_discards_attempt (w : World) (self : PSXTicker)
        (start_date end_date : option datetime) (period : string)
        (t0 : list event) (sd ed : datetime)
        (payload rows : pyval) (entries : list pyval)
        (d o h l c v : pyval) (e0 : exn) :
  resolve_range w start_date end_date period = (t0, Ok (sd, ed)) ->
  TradingViewClient w = Ok tt ->
  tv_get_historical_data w (symbol self) sd ed = Ok payload ->
  Py.getitem payload "data" = Ok rows ->
  Py.iter rows = Ok entries ->
  In (PList [d; o; h; l; c; v]) entries ->
  pd_to_datetime w d = Raise e0 ->
  exists e,
    tv_rows w self sd ed = Raise e
    /\ get_historical_data w self start_date end_date period true false
       = ((t0 ++ [EvTradingViewClient;
                  EvTradingViewHistorical (symbol self) sd ed])%list,
          Raise (request_error (error_msg [tradingview_failure e]))).
Proof.
  intros Hr Hc Hp Hg Hi Hin Hd.
  apply (failing_entry_discards_attempt
           w self _ _ _ t0 sd ed payload rows entries Hr Hc Hp Hg Hi
           (PList [d; o; h; l; c; v]) e0 Hin).
  cbn [tv_record List.length Nat.leb Py.unpack6]. now rewrite Hd.
Qed.

Lemma unreadable_date_discards_attempt_witness :
  let bad := PList [PNone; PInt 1; PInt 2; PInt 0; PInt 1; PInt 10] in
  let entries := [Sample.row6; bad] in
  let w := strict_world (Ok (Sample.payload entries)) in
  exists e,
    tv_rows w Sample.hbl (ymd 2024 3 1) Sample.today = Raise e
    /\ get_historical_data w Sample.hbl None None "1mo" true false
       = ([EvNow; EvTradingViewClient;
           EvTradingViewHistorical "HBL" (ymd 2024 3 1) Sample.today],
          Raise (request_error (error_msg [tradingview_failure e]))).
Proof.
  intros bad entries w.
  apply (unreadable_date_discards_attempt
           w Sample.hbl None None "1mo" [EvNow] (ymd 2024 3 1) Sample.today
           (Sample.payload entries) (PList entries) entries
           PNone (PInt 1) (PInt 2) (PInt 0) (PInt 1) (PInt 10)
           (builtin_exn TypeError
                        "'NoneType' is not convertible to datetime"));
    try reflexivity.
  right. left. reflexivity.
Defined.

(** ** Intraday data, its failures *)



(** X13: when the primary intraday source fails and the secondary answers
    with a value that is no mapping ([None], a number, a text, a list, a
    tuple, a datetime), the call reads the clock, then fails on the missing
    [get] method; the failure is reported as a [PSXRequestError] that names
    the value's type. *)
Theorem intraday_secondary_not_a_mapping (w : World) (self : PSXTicker)
        (e1 : exn) (data : pyval) :
  reader_get_intraday_data w (symbol self) = Raise e1 ->
  fetch_intraday_data w (symbol self) = Ok data ->
  lacks_get data = true ->
  get_intraday_data w self
  = ([EvReaderIntraday (symbol self); EvFetchIntraday (symbol self); EvNow],
     Raise (request_error
              ("Failed to fetch intraday data: '" ++ Py.type_name data
                 ++ "' object has no attribute 'get'"))).
Proof.
  intros H1 H2 Hl. unfold get_intraday_data, call. rewrite H1, H2.
  destruct data; try discriminate Hl; reflexivity.
Qed.

Lemma intraday_secondary_not_a_mapping_witness :
  get_intraday_data (Sample.intraday (Raise Sample.timeout) (Ok PNone))
                    Sample.hbl
  = ([EvReaderIntraday "HBL"; EvFetchIntraday "HBL"; EvNow],
     Raise (request_error
              ("Failed to fetch intraday data: "
                 ++ "'NoneType' object has no attribute 'get'"))).
Proof.
  apply (intraday_secondary_not_a_mapping
           (Sample.intraday (Raise Sample.timeout) (Ok PNone)) Sample.hbl
           Sample.timeout PNone); reflexivity.
Defined.

(** ** Periods with a sign *)

Section Signed.

Lemma lstrip_head (c : ascii) (l : list ascii) :
  PyStr.is_space c = false -> PyStr.lstrip (c :: l) = c :: l.
Proof. intros H. simpl. now rewrite H. Qed.

Lemma strip_minus_digits (l : list ascii) :
  forallb PyStr.is_digit l = true ->
  l <> [] ->
  PyStr.strip ("-"%char :: l) = "-"%char :: l.
Proof.
  intros Hd Hne. unfold PyStr.strip.
  rewrite lstrip_head by reflexivity.
  assert (Hrev : PyStr.lstrip (List.rev ("-"%char :: l))
                 = List.rev ("-"%char :: l)).
  { simpl List.rev.
    destruct (List.rev l) as [|c r] eqn:E.
    - exfalso. apply Hne. apply (f_equal (@List.rev ascii)) in E.
      now rewrite rev_involutive in E.
    - simpl app. apply lstrip_head, digit_is_not_space.
      assert (Hin : In c l) by (apply in_rev; rewrite E; now left).
      exact (proj1 (forallb_forall _ _) Hd c Hin). }
  rewrite Hrev. apply rev_involutive.
Qed.

Lemma int_of_minus_digits (ds : string) :
  all_digits ds = true ->
  ds <> EmptyString ->
  (String.length ds <= PyInt.max_str_digits)%nat ->
  PyInt.int ("-" ++ ds) = Ok (- decimal_value ds).
Proof.
  unfold all_digits, decimal_value. intros Hd Hne Hlen.
  unfold PyInt.int.
  change (PyStr.chars ("-" ++ ds)) with ("-"%char :: PyStr.chars ds).
  rewrite <- chars_length in Hlen.
  assert (Hnil : PyStr.chars ds <> []).
  { intros H. now apply Hne, chars_nil. }
  rewrite (strip_minus_digits _ Hd Hnil).
  rewrite (digits_of_digits _ Hd false 0 0%nat) by now left.
  destruct (Nat.ltb_spec PyInt.max_str_digits
                         (0 + List.length (PyStr.chars ds)));
    [lia | reflexivity].
Qed.

End Signed.

(** X14: a minus sign before the count is accepted and not checked: the
    start date is then moved forward, 30 days per month, so that it lies
    after the end date that is handed to the sources. *)
Theorem negative_period_moves_forward (ds : string) (end_date : datetime) :
  all_digits ds = true ->
  ds <> EmptyString ->
  (String.length ds <= PyInt.max_str_digits)%nat ->
  days_in_range end_date (- decimal_value ds * 30) ->
  period_start ("-" ++ ds ++ "mo") end_date
  = Ok (mkDatetime (ordinal end_date + decimal_value ds * 30)
                   (micros end_date))
  /\ ordinal end_date <= ordinal end_date + decimal_value ds * 30.
Proof.
  intros Hd Hne Hlen Hrange. split.
  - unfold period_start.
    change ("-" ++ ds ++ "mo") with (("-" ++ ds) ++ "mo").
    rewrite drop_last2_months, (int_of_minus_digits ds Hd Hne Hlen),
      last2_months.
    cbn [String.eqb Ascii.eqb Bool.eqb].
    destruct (days_before_cases end_date (- decimal_value ds * 30))
      as [Hok _].
    rewrite (Hok Hrange). f_equal. f_equal. lia.
  - pose proof (decimal_value_nonneg ds). lia.
Qed.

Lemma negative_period_moves_forward_witness :
  period_start ("-" ++ "2" ++ "mo") (ymd 2024 3 31)
  = Ok (mkDatetime (ordinal (ymd 2024 3 31) + decimal_value "2" * 30)
                   (micros (ymd 2024 3 31)))
  /\ ordinal (ymd 2024 3 31)
     <= ordinal (ymd 2024 3 31) + decimal_value "2" * 30.
Proof.
  apply (negative_period_moves_forward "2" (ymd 2024 3 31)).
  - reflexivity.
  - discriminate.
  - unfold PyInt.max_str_digits. simpl. lia.
  - unfold days_in_range. vm_compute. repeat split; discriminate.
Defined.

(** ** Where the exceptions of a call come from *)


